(** * Venmo API client ([api_client.py]): a shallow embedding and its properties

    The development follows the source file top to bottom.

    - Python values that travel through the client (JSON bodies, header
      dictionaries) and the exceptions the client raises.
    - [ApiClient.__validate_access_token], [validate_response], [request],
      [__call_api] and [call_api], written over an explicit state that holds
      the client object, the sessions created so far, the log of calls
      handed to [session.request], the threads started and the callbacks
      invoked.
    - [clean_kwargs], written over a store of dictionary objects, since it
      updates its argument in place.

    The HTTP transport ([requests]) is not part of the repository: the
    answer of the remote service is a parameter of the model. *)

From Stdlib Require Import ZArith Floats.
From stdpp Require Import gmap strings list.

Set Warnings "-register-all".

Local Open Scope string_scope.
Local Open Scope Z_scope.

(** ** Python values *)

(** What [json.loads] produces, which is also what a caller passes as
    [body]: [None], booleans, integers of any size, binary64 floats,
    strings, lists and dictionaries (in insertion order). *)
Inductive value : Type :=
| JNull
| JBool (b : bool)
| JInt (n : Z)
| JFloat (f : float)
| JStr (s : string)
| JList (items : list value)
| JDict (entries : list (string * value)).

(** Header dictionaries, [str] to [str]. *)
Abbreviation headers := (gmap string string).

(** Query parameters are handed to the transport untouched. *)
Abbreviation query := (list (string * string)).

(** [d.get(key)] and [d[key]] on the entries of a dictionary: the first
    entry with that key (keys of a dictionary are unique). *)
Fixpoint dict_lookup {A} (key : string) (entries : list (string * A)) : option A :=
  match entries with
  | [] => None
  | (k, v) :: rest => if String.eqb k key then Some v else dict_lookup key rest
  end.

(** Python's [x == n] for an integer literal [n]. An [int] compares by
    value, a [float] compares exactly (no rounding of the integer), [True]
    and [False] compare as 1 and 0; every other value is unequal. *)
Definition float_eq_int (f : float) (n : Z) : bool :=
  match Prim2SF f with
  | S754_zero _ => n =? 0
  | S754_finite sign m e =>
      let mant := if sign then Z.neg m else Z.pos m in
      if 0 <=? e then n =? mant * 2 ^ e else n * 2 ^ (- e) =? mant
  | S754_infinity _ | S754_nan => false
  end.

Definition py_eq_int (v : value) (n : Z) : bool :=
  match v with
  | JInt m => m =? n
  | JFloat f => float_eq_int f n
  | JBool b => (if b then 1 else 0) =? n
  | JNull | JStr _ | JList _ | JDict _ => false
  end.

(** Python's truth value, as tested by [if body:] and [x or y]. *)
Definition truthy (v : value) : bool :=
  match v with
  | JNull => false
  | JBool b => b
  | JInt n => negb (n =? 0)
  | JFloat f => negb (PrimFloat.eqb f 0%float)
  | JStr s => negb (String.eqb s "")
  | JList items => match items with [] => false | _ => true end
  | JDict entries => match entries with [] => false | _ => true end
  end.

(** ** Responses and exceptions *)

(** A [requests.Response] as the client reads it: the status code, the
    headers, and the outcome of calling [response.json()], which is [None]
    when the body does not decode (the call raises). *)
Record Response : Type := mkResponse {
  status_code : Z;
  response_headers : headers;
  json : option value
}.

(** The exceptions of [models.exception], and the built-in ones the code
    can raise. [HttpCodeError] is constructed with [response=response]. *)
Inductive exn : Type :=
| InvalidHttpMethodError
| ResourceNotFoundError
| HttpCodeError (response : Response)
| JSONDecodeError
| AttributeError (message : string)
| TypeError (message : string)
| KeyError (key : string)
| SystemError (message : string)
| RequestException (message : string).

(** The outcome of a Python call: a value or a raised exception. *)
Inductive result (A : Type) : Type :=
| Return (a : A)
| Raise (e : exn).
Arguments Return {A} a.
Arguments Raise {A} e.

#[global] Instance result_ret : MRet result := @Return.
#[global] Instance result_bind : MBind result := fun A B f r =>
  match r with
  | Return a => f a
  | Raise e => Raise e
  end.

(** ** [__validate_access_token] *)

(** [access_token[:6]]: the first six characters, fewer when the string is
    shorter. *)
Definition slice_to (n : nat) (s : string) : string := String.substring 0 n s.

Definition __validate_access_token (access_token : string) : string :=
  if negb (String.eqb (slice_to 6 access_token) "Bearer")
  then "Barear " ++ access_token
  else access_token.

(** ** [validate_response] *)

(** [x.get(key)] on a decoded value: defined on dictionaries, where a
    missing key gives [None]; any other value has no attribute [get]. *)
Definition py_get (v : value) (key : string) : result value :=
  match v with
  | JDict entries => Return (default JNull (dict_lookup key entries))
  | _ => Raise (AttributeError "object has no attribute 'get'")
  end.

(** [response.json()]. *)
Definition response_json (response : Response) : result value :=
  match json response with
  | Some v => Return v
  | None => Raise JSONDecodeError
  end.

(** [x in range(lo, hi)] for an integer [x]. *)
Definition in_range (x lo hi : Z) : bool := (lo <=? x) && (x <? hi).

(** The truth value of the bound method [response.json]: the source tests
    the attribute, it does not call it, and a method object is true. *)
Definition bound_method_truth : bool := true.

Definition validate_response (response : Response) : result Response :=
  if in_range (status_code response) 200 205 && bound_method_truth then
    Return response
  else if status_code response =? 400 then
    body ← response_json response;
    error ← py_get body "error";
    code ← py_get error "code";
    if py_eq_int code 283 then Raise ResourceNotFoundError
    else Raise (HttpCodeError response)
  else
    Raise (HttpCodeError response).

(** ** The client object and the world around it *)

(** A [requests.Session]: its identity and the headers it sends by
    default. *)
Record Session : Type := mkSession {
  session_id : nat;
  session_headers : headers
}.

(** One invocation of [session.request(method=, url=, headers=, params=,
    json=)], with the session it was made on. The session and the headers
    are recorded with the contents they have when the call is made. *)
Record HttpCall : Type := mkHttpCall {
  call_session : Session;
  call_method : string;
  call_url : string;
  call_headers : option headers;
  call_params : option query;
  call_json : value
}.

(** The dictionary [{"status_code": .., "headers": .., "body": ..}] that
    [request] returns. *)
Record ResponseResult : Type := mkResponseResult {
  result_status_code : Z;
  result_headers : headers;
  result_body : value
}.

(** A callback is a function object supplied by the caller. The client
    calls it with the result and drops its value, so what the client can
    observe of it is that it was called and whether it raised:
    [callback_raises cb r] is the exception raised on [r], if any. A
    function object is true in a condition. *)
Record Callback : Type := mkCallback {
  callback_name : string;
  callback_raises : ResponseResult → option exn
}.

(** Dictionary objects are told apart by what refers to them. *)
Abbreviation loc := positive.

(** The dictionary objects a caller can pass as [header_params]: one of
    its own, or one of the three the client holds ([self.default_headers],
    [self.configuration], [self.session.headers]). [__call_api] updates
    the object it is given, so which object it is matters. *)
Inductive dict_ref : Type :=
| DefaultHeaders
| Configuration
| SessionHeaders
| CallerDict (l : loc).

#[global] Instance dict_ref_eq_dec : EqDecision dict_ref.
Proof. solve_decision. Defined.

(** The arguments of [call_api] and [__call_api], in positional order. *)
Record CallArgs : Type := mkCallArgs {
  arg_resource_path : string;
  arg_method : string;
  arg_header_params : option dict_ref;
  arg_params : option query;
  arg_body : value;
  arg_callback : option Callback
}.

(** A [threading.Thread] whose target is [self.__call_api]. *)
Record Thread : Type := mkThread {
  thread_ident : nat;
  thread_args : CallArgs
}.

(** The attributes of an [ApiClient]. [last_response] is not set by the
    constructor; it appears with the first call. *)
Record ApiClient : Type := mkApiClient {
  access_token : string;
  configuration : gmap string string;
  default_headers : headers;
  session : Session;
  last_response : option ResponseResult
}.

(** What the client's code can observe or change outside the client:
    how many sessions exist, the calls handed to the transport (oldest
    first), the threads started, the callbacks invoked with their
    argument, and the caller's own dictionaries (a location that holds
    nothing is an empty dictionary). *)
Record World : Type := mkWorld {
  sessions_created : nat;
  http_log : list HttpCall;
  started : list Thread;
  callback_log : list (Callback * ResponseResult);
  caller_dicts : gmap loc headers
}.

Record State : Type := mkState {
  self : ApiClient;
  world : World
}.

(** Stateful Python code: a state transformer that returns or raises. *)
Definition ST (Σ A : Type) : Type := Σ → result A * Σ.

#[global] Instance ST_ret {Σ} : MRet (ST Σ) := fun A a st => (Return a, st).
#[global] Instance ST_bind {Σ} : MBind (ST Σ) := fun A B f m st =>
  match m st with
  | (Return a, st') => f a st'
  | (Raise e, st') => (Raise e, st')
  end.

Definition raise {Σ A} (e : exn) : ST Σ A := fun st => (Raise e, st).

(** A computation without effects, run inside stateful code. *)
Definition lift {Σ A} (r : result A) : ST Σ A := fun st => (r, st).

(** The methods of the client run over [State]. *)
Abbreviation M := (ST State).

Definition get_self : M ApiClient := fun st => (Return (self st), st).

(** The elementary changes of the state. *)
Definition store_last_response (r : ResponseResult) (st : State) : State :=
  let c := self st in
  mkState (mkApiClient (access_token c) (configuration c) (default_headers c)
             (session c) (Some r))
          (world st).

Definition count_session (st : State) : State :=
  let w := world st in
  mkState (self st)
          (mkWorld (S (sessions_created w)) (http_log w) (started w)
                   (callback_log w) (caller_dicts w)).

Definition log_call (c : HttpCall) (st : State) : State :=
  let w := world st in
  mkState (self st)
          (mkWorld (sessions_created w) (http_log w ++ [c]) (started w)
                   (callback_log w) (caller_dicts w)).

Definition record_thread (t : Thread) (st : State) : State :=
  let w := world st in
  mkState (self st)
          (mkWorld (sessions_created w) (http_log w) (started w ++ [t])
                   (callback_log w) (caller_dicts w)).

Definition record_callback (cb : Callback) (r : ResponseResult) (st : State)
    : State :=
  let w := world st in
  mkState (self st)
          (mkWorld (sessions_created w) (http_log w) (started w)
                   (callback_log w ++ [(cb, r)]) (caller_dicts w)).

(** The contents of a dictionary object, and the state after its contents
    are replaced. *)
Definition read_dict (r : dict_ref) (st : State) : headers :=
  match r with
  | DefaultHeaders => default_headers (self st)
  | Configuration => configuration (self st)
  | SessionHeaders => session_headers (session (self st))
  | CallerDict l => default ∅ (caller_dicts (world st) !! l)
  end.

Definition write_dict (r : dict_ref) (h : headers) (st : State) : State :=
  let c := self st in
  let w := world st in
  match r with
  | DefaultHeaders =>
      mkState (mkApiClient (access_token c) (configuration c) h (session c)
                           (last_response c)) w
  | Configuration =>
      mkState (mkApiClient (access_token c) h (default_headers c) (session c)
                           (last_response c)) w
  | SessionHeaders =>
      mkState (mkApiClient (access_token c) (configuration c)
                           (default_headers c)
                           (mkSession (session_id (session c)) h)
                           (last_response c)) w
  | CallerDict l =>
      mkState c (mkWorld (sessions_created w) (http_log w) (started w)
                         (callback_log w) (<[l := h]> (caller_dicts w)))
  end.

(** What the local variable [header_params] of [__call_api] is bound to:
    a dictionary that exists outside the call, or one made by the call,
    which nothing else refers to. *)
Inductive dict_place : Type :=
| Held (r : dict_ref)
| Made (contents : headers).

(** [header_params or {}]: the dictionary given when it is not empty, a
    new empty dictionary otherwise. *)
Definition or_new_dict (header_params : option dict_ref) : M dict_place :=
  fun st =>
    match header_params with
    | Some r =>
        if decide (read_dict r st = ∅) then (Return (Made ∅), st)
        else (Return (Held r), st)
    | None => (Return (Made ∅), st)
    end.

(** [d.update(extra)], in place: the entries of [extra] win. *)
Definition dict_update (p : dict_place) (extra : headers) : M dict_place :=
  fun st =>
    match p with
    | Held r => (Return (Held r), write_dict r (extra ∪ read_dict r st) st)
    | Made h => (Return (Made (extra ∪ h)), st)
    end.

(** The contents of the dictionary when it is handed over. *)
Definition place_contents (p : dict_place) : M headers := fun st =>
  match p with
  | Held r => (Return (read_dict r st), st)
  | Made h => (Return h, st)
  end.

(** [self.last_response = processed_response]. *)
Definition set_last_response (r : ResponseResult) : M unit := fun st =>
  (Return tt, store_last_response r st).

(** [session.headers.update(extra)]: the entries of [extra] win. *)
Definition session_headers_update (s : Session) (extra : headers) : Session :=
  mkSession (session_id s) (extra ∪ session_headers s).

(** [d[key]] on a dictionary of strings. *)
Definition getitem (d : gmap string string) (key : string) : result string :=
  match d !! key with
  | Some v => Return v
  | None => Raise (KeyError key)
  end.

(** [method not in ['POST', 'PUT', 'GET', 'DELETE']]. *)
Definition http_methods : list string := ["POST"; "PUT"; "GET"; "DELETE"].

Definition method_allowed (method : string) : bool :=
  existsb (String.eqb method) http_methods.

Section Transport.

(** The remote service seen through [requests]: given the calls made
    before, what [session.request] answers to a call, a response or an
    exception of the transport. *)
Variable network : list HttpCall → HttpCall → result Response.

(** The headers a new [requests.Session()] starts with. *)
Variable requests_default_headers : headers.

(** [requests.Session()]. *)
Definition Session_new : M Session := fun st =>
  (Return (mkSession (sessions_created (world st)) requests_default_headers),
   count_session st).

(** [session.request(...)]: the call reaches the transport, which
    answers. *)
Definition session_request (c : HttpCall) : M Response := fun st =>
  (network (http_log (world st)) c, log_call c st).

(** [callback(processed_response)]: the callback is called, and returns
    or raises. *)
Definition invoke (cb : Callback) (r : ResponseResult) : M unit := fun st =>
  (match callback_raises cb r with
   | Some e => Raise e
   | None => Return tt
   end,
   record_callback cb r st).

(** [ApiClient.__init__]. *)
Definition __init__ (token : string) (w : World) : State :=
  let access_token := __validate_access_token token in
  let default_headers : headers :=
    {[ "Authorization" := access_token;
       "User-Agent" := "Venmo/7.44.0 (iPhone; iOS 13.0; Scale/2.0)" ]} in
  let s := mkSession (sessions_created w) requests_default_headers in
  mkState
    (mkApiClient access_token {[ "host" := "https://api.venmo.com/v1" ]}
                 default_headers (session_headers_update s default_headers)
                 None)
    (mkWorld (S (sessions_created w)) (http_log w) (started w)
             (callback_log w) (caller_dicts w)).

(** [ApiClient.request]. It does not change the dictionary it is given,
    so it takes the contents. *)
Definition request (method url : string) (session : Session)
    (header_params : option headers) (params : option query) (body : value)
    : M ResponseResult :=
  if negb (method_allowed method) then raise InvalidHttpMethodError
  else
    response ← session_request
                 (mkHttpCall session method url header_params params body);
    response ← lift (validate_response response);
    body ← lift (response_json response);
    mret (mkResponseResult (status_code response) (response_headers response)
                           body).

(** [ApiClient.__call_api]. It returns the processed response when no
    callback is given and [None] otherwise. *)
Definition __call_api (resource_path method : string)
    (header_params : option dict_ref) (params : option query) (body : value)
    (callback : option Callback) : M (option ResponseResult) :=
  header_params ← or_new_dict header_params;
  header_params ←
    (if truthy body
     then dict_update header_params
            {[ "Content-Type" := "application/json" ]}
     else mret header_params);
  this ← get_self;
  host ← lift (getitem (configuration this) "host");
  let url := host ++ resource_path in
  session ← match callback with
            | Some _ =>
                s ← Session_new;
                mret (session_headers_update s (default_headers this))
            | None => mret (session this)
            end;
  headers ← place_contents header_params;
  processed_response ← request method url session (Some headers)
                               params body;
  _ ← set_last_response processed_response;
  match callback with
  | Some cb => _ ← invoke cb processed_response; mret None
  | None => mret (Some processed_response)
  end.

(** What [call_api] hands back: the value of [__call_api], or the
    thread it started. *)
Inductive CallApiReturn : Type :=
| ReturnedValue (v : option ResponseResult)
| ReturnedThread (t : Thread).

(** [threading.Thread(target=self.__call_api, args=...)] followed by
    [thread.start()]: the thread is recorded as started; its body runs
    as [Thread_run]. *)
Definition Thread_start (args : CallArgs) : M Thread := fun st =>
  let t := mkThread (length (started (world st))) args in
  (Return t, record_thread t st).

(** [ApiClient.call_api]. *)
Definition call_api (resource_path method : string)
    (header_params : option dict_ref) (params : option query) (body : value)
    (callback : option Callback) : M CallApiReturn :=
  match callback with
  | None =>
      v ← __call_api resource_path method header_params params body callback;
      mret (ReturnedValue v)
  | Some _ =>
      thread ← Thread_start (mkCallArgs resource_path method header_params
                                        params body callback);
      mret (ReturnedThread thread)
  end.

(** The body of a started thread: the target applied to the arguments;
    its value is dropped. *)
Definition Thread_run (t : Thread) : M unit :=
  let a := thread_args t in
  _ ← __call_api (arg_resource_path a) (arg_method a) (arg_header_params a)
                 (arg_params a) (arg_body a) (arg_callback a);
  mret tt.

End Transport.

(** The primary session is one of the sessions created so far.
    [__init__] establishes this and no method of the client undoes it. *)
Definition session_registered (st : State) : Prop :=
  (session_id (session (self st)) < sessions_created (world st))%nat.

(** *** The header lines of [__call_api], described *)

(** The contents of the dictionary passed as [header_params] (none passed:
    no entries). *)
Definition header_contents (header_params : option dict_ref) (st : State)
    : headers :=
  match header_params with
  | Some r => read_dict r st
  | None => ∅
  end.

(** The state the two header statements of [__call_api] leave: a
    dictionary that was passed, is not empty and comes with a body that is
    true in a condition has Content-Type written into it; nothing else
    changes. *)
Definition headers_updated (header_params : option dict_ref) (body : value)
    (st : State) : State :=
  match header_params with
  | Some r =>
      if truthy body && negb (bool_decide (read_dict r st = ∅))
      then write_dict r (<["Content-Type" := "application/json"]>
                           (read_dict r st)) st
      else st
  | None => st
  end.

(** *** What the transport sends *)

(** The headers of the request [requests] puts on the wire for a call.
    This is the behaviour of the library, which is not part of the
    repository: the headers given with the call are laid over those of
    the session, and when a [json=] body is given (anything but [None])
    and no Content-Type is among them, Content-Type: application/json is
    added. *)
Definition effective_headers (c : HttpCall) : headers :=
  let merged := default ∅ (call_headers c) ∪ session_headers (call_session c) in
  match call_json c with
  | JNull => merged
  | _ =>
      match merged !! "Content-Type" with
      | Some _ => merged
      | None => <["Content-Type" := "application/json"]> merged
      end
  end.

(** ** [clean_kwargs] *)

(** [clean_kwargs] assigns into and deletes from the dictionary it is
    given, so dictionaries are objects in a store and a parameter mapping
    is a reference to one. *)

(** The values held in a parameter mapping: plain data, or a reference to
    a dictionary object (the catch-all bucket is one). *)
Inductive pyval : Type :=
| VNone
| VBool (b : bool)
| VInt (n : Z)
| VStr (s : string)
| VRef (l : loc).

(** A dictionary object: its entries in iteration order, keys unique. *)
Abbreviation dict := (list (string * pyval)).

Abbreviation store := (gmap loc dict).

Definition keys (d : dict) : list string := d.*1.

(** [d[key] = val]: an existing key keeps its place, a new key goes last. *)
Fixpoint dict_set (key : string) (val : pyval) (d : dict) : dict :=
  match d with
  | [] => [(key, val)]
  | (k, v) :: rest =>
      if String.eqb k key then (k, val) :: rest
      else (k, v) :: dict_set key val rest
  end.

(** The entries left by [del d[key]]: the entry under [key] goes, the
    others keep their order. *)
Fixpoint dict_remove (key : string) (d : dict) : dict :=
  match d with
  | [] => []
  | (k, v) :: rest =>
      if String.eqb k key then dict_remove key rest
      else (k, v) :: dict_remove key rest
  end.

(** A dictionary after the assignments [d[key] = val] for the entries of
    [items], in order. *)
Definition assign_all (items : dict) (d : dict) : dict :=
  foldl (λ acc kv, dict_set kv.1 kv.2 acc) d items.

(** Reading the object at a location. Python has no dangling reference;
    the model answers [SystemError] there so that every function is
    total. *)
Definition deref (l : loc) : ST store dict := fun h =>
  match h !! l with
  | Some d => (Return d, h)
  | None => (Raise (SystemError "no object at this location"), h)
  end.

Definition assign (l : loc) (d : dict) : ST store unit := fun h =>
  (Return tt, <[l := d]> h).

(** [params[key]]. *)
Definition subscript (params : loc) (key : string) : ST store pyval :=
  d ← deref params;
  match dict_lookup key d with
  | Some v => mret v
  | None => raise (KeyError key)
  end.

(** [params[key] = val]. *)
Definition setitem (params : loc) (key : string) (val : pyval) : ST store unit :=
  d ← deref params;
  assign params (dict_set key val d).

(** [del params[key]]. *)
Definition delitem (params : loc) (key : string) : ST store unit :=
  d ← deref params;
  match dict_lookup key d with
  | Some _ => assign params (dict_remove key d)
  | None => raise (KeyError key)
  end.

(** [iteritems(x)]: the entries of the dictionary [x] refers to. The loop
    of [clean_kwargs] never changes the size of the dictionary it iterates
    over, and when that dictionary is [params] itself each assignment
    writes back the value already there, so the entries read up front are
    the entries the iteration sees. *)
Definition iteritems (x : pyval) : ST store dict :=
  match x with
  | VRef bucket => deref bucket
  | _ => raise (AttributeError "object has no attribute 'items'")
  end.

(** The message of the [TypeError]. *)
Definition unexpected_keyword (key : string) : string :=
  "Got an unexpected keyword argument '" ++ key ++ "' to method bla bla".

(** [key in all_params]. *)
Definition allowed (all_params : list string) (key : string) : bool :=
  existsb (String.eqb key) all_params.

(** The [for key, val in ...] loop. *)
Fixpoint merge_items (all_params : list string) (params : loc)
    (items : dict) : ST store unit :=
  match items with
  | [] => mret tt
  | (key, val) :: rest =>
      if negb (allowed all_params key)
      then raise (TypeError (unexpected_keyword key))
      else _ ← setitem params key val; merge_items all_params params rest
  end.

Definition clean_kwargs (all_params : list string) (params : loc)
    : ST store loc :=
  bucket ← subscript params "kwargs";
  items ← iteritems bucket;
  _ ← merge_items all_params params items;
  _ ← delitem params "kwargs";
  mret params.

(** ** Sample data for the examples *)

(** A service that answers every call with the same response. *)
Definition answering (response : Response)
    : list HttpCall → HttpCall → result Response :=
  fun _ _ => Return response.

Definition sample_session_headers : headers := {[ "Accept" := "*/*" ]}.

Definition sample_world : World := mkWorld 0 [] [] [] ∅.

(** A client built by the constructor from the token ["abc123"]. *)
Definition sample_state : State :=
  __init__ sample_session_headers "abc123" sample_world.

Definition ok_response : Response :=
  mkResponse 200 {[ "Content-Type" := "application/json" ]}
             (Some (JDict [("id", JInt 7)])).

Definition ok_result : ResponseResult :=
  mkResponseResult 200 {[ "Content-Type" := "application/json" ]}
                   (JDict [("id", JInt 7)]).

(** A 200 whose body is not JSON. *)
Definition undecodable_response : Response := mkResponse 200 ∅ None.

Definition sample_body : value := JDict [("note", JStr "lunch")].

Definition sample_callback : Callback :=
  mkCallback "on_done" (fun _ => None).

(** A callback that raises on every result. *)
Definition failing_callback : Callback :=
  mkCallback "on_done_raises" (fun _ => Some (TypeError "bad callback")).

(** A world in which the caller holds a dictionary of headers, and a
    client built there. *)
Definition caller_world : World :=
  mkWorld 0 [] [] [] {[ 7%positive := {[ "X-Trace" := "1" ]} ]}.

Definition caller_state : State :=
  __init__ sample_session_headers "abc123" caller_world.

(** The stores of the specification's two examples: the mapping at
    location 1 is [{"kwargs": <2>}], the bucket at location 2 is
    [{"a": 1}], respectively [{"a": 1, "c": 2}]. *)
Definition store_a : store :=
  {[ 1%positive := [("kwargs", VRef 2)]; 2%positive := [("a", VInt 1)] ]}.

Definition store_a_c : store :=
  {[ 1%positive := [("kwargs", VRef 2)];
     2%positive := [("a", VInt 1); ("c", VInt 2)] ]}.

(** A bucket that itself holds the key ["kwargs"]. *)
Definition store_kwargs : store :=
  {[ 1%positive := [("kwargs", VRef 2)];
     2%positive := [("kwargs", VInt 1)] ]}.

(** A transport that cannot reach the service. *)
Definition unreachable : list HttpCall → HttpCall → result Response :=
  fun _ _ => Raise (RequestException "connection refused").

(** The service's answer for a resource that does not exist, and an
    answer of a failing server. *)
Definition not_found_response : Response :=
  mkResponse 400 ∅
    (Some (JDict [("error", JDict [("message", JStr "Resource not found.");
                                   ("code", JInt 283)])])).

Definition server_error_response : Response := mkResponse 500 ∅ None.

(** A thread as [call_api] starts it for a POST with a callback, and one
    for a method the client does not accept. *)
Definition sample_thread : Thread :=
  mkThread 0 (mkCallArgs "/payments" "POST" None None sample_body
                         (Some sample_callback)).

Definition patch_thread : Thread :=
  mkThread 1 (mkCallArgs "/payments" "PATCH" None None sample_body
                         (Some sample_callback)).

(** A thread whose callback raises, and one that passes the caller's own
    dictionary with a method the client does not accept. *)
Definition failing_thread : Thread :=
  mkThread 2 (mkCallArgs "/payments" "POST" (Some (CallerDict 7)) None
                         sample_body (Some failing_callback)).

Definition caller_patch_thread : Thread :=
  mkThread 3 (mkCallArgs "/payments" "PATCH" (Some (CallerDict 7)) None
                         sample_body (Some sample_callback)).

(** A mapping without a bucket, and one whose ["kwargs"] entry is not a
    dictionary. *)
Definition store_no_bucket : store := {[ 1%positive := [("limit", VInt 10)] ]}.

Definition store_bucket_none : store :=
  {[ 1%positive := [("limit", VInt 10); ("kwargs", VNone)] ]}.

(** A mapping with an entry of its own and an empty bucket. *)
Definition store_empty_bucket : store :=
  {[ 1%positive := [("limit", VInt 10); ("kwargs", VRef 2)];
     2%positive := [] ]}.

(** * Properties *)

(** ** Access token *)

Lemma slice_to_0 (s : string) : slice_to 0 s = "".
Proof. by destruct s. Qed.

Lemma slice_to_Bearer (token : string) :
  slice_to 6 token = "Bearer" ↔ ∃ rest, token = "Bearer" ++ rest.
Proof.
  split.
  - intros H.
    destruct token as [|c1 [|c2 [|c3 [|c4 [|c5 [|c6 rest]]]]]];
      try discriminate.
    exists rest. change (slice_to 6 _) with
      (String c1 (String c2 (String c3 (String c4 (String c5
         (String c6 (slice_to 0 rest))))))) in H.
    rewrite slice_to_0 in H. by simplify_eq.
  - intros [rest ->].
    change (slice_to 6 _) with ("Bearer" ++ slice_to 0 rest).
    by rewrite slice_to_0.
Qed.

Lemma validate_access_token_unchanged (token : string) :
  slice_to 6 token = "Bearer" → __validate_access_token token = token.
Proof. unfold __validate_access_token. by intros ->. Qed.

Lemma validate_access_token_prepends (token : string) :
  slice_to 6 token ≠ "Bearer" →
  __validate_access_token token = "Barear " ++ token.
Proof.
  unfold __validate_access_token. intros H.
  destruct (String.eqb_spec (slice_to 6 token) "Bearer"); [done | done].
Qed.

(** ** Response validation *)

Lemma in_range_spec (x lo hi : Z) : in_range x lo hi = true ↔ lo ≤ x < hi.
Proof. unfold in_range. rewrite andb_true_iff. lia. Qed.

Lemma in_range_false (x lo hi : Z) :
  in_range x lo hi = false ↔ x < lo ∨ hi ≤ x.
Proof.
  unfold in_range. rewrite andb_false_iff, Z.leb_gt, Z.ltb_ge. lia.
Qed.

(** A status from 200 to 204 passes validation whatever the body is. *)
Lemma validate_response_2xx (response : Response) :
  200 ≤ status_code response ≤ 204 →
  validate_response response = Return response.
Proof.
  intros H. unfold validate_response.
  assert (in_range (status_code response) 200 205 = true) as ->
    by (apply in_range_spec; lia).
  done.
Qed.

(** A status outside 200..204 other than 400 raises [HttpCodeError] with
    the response. *)
Lemma validate_response_other_status (response : Response) :
  ¬ 200 ≤ status_code response ≤ 204 →
  status_code response ≠ 400 →
  validate_response response = Raise (HttpCodeError response).
Proof.
  intros H1 H2. unfold validate_response.
  assert (in_range (status_code response) 200 205 = false) as ->
    by (apply in_range_false; lia).
  apply Z.eqb_neq in H2. by rewrite H2.
Qed.

(** A 400 whose body is a dictionary with a dictionary under ["error"]
    and a code (or none) that is not 283 raises [HttpCodeError] with the
    response. *)
Lemma validate_response_400_other_code (response : Response)
    (entries error : list (string * value)) :
  status_code response = 400 →
  json response = Some (JDict entries) →
  dict_lookup "error" entries = Some (JDict error) →
  py_eq_int (default JNull (dict_lookup "code" error)) 283 = false →
  validate_response response = Raise (HttpCodeError response).
Proof.
  intros Hs Hj He Hc. unfold validate_response, response_json.
  rewrite Hs, Hj. simpl. rewrite He. simpl. by rewrite Hc.
Qed.

(** A 400 whose body does not decode, or decodes to a dictionary without
    an ["error"] entry, does not reach [HttpCodeError]. *)
Lemma validate_response_400_undecodable (response : Response) :
  status_code response = 400 →
  json response = None →
  validate_response response = Raise JSONDecodeError.
Proof.
  intros Hs Hj. unfold validate_response, response_json. by rewrite Hs, Hj.
Qed.

Lemma validate_response_400_no_error (response : Response)
    (entries : list (string * value)) :
  status_code response = 400 →
  json response = Some (JDict entries) →
  dict_lookup "error" entries = None →
  validate_response response
  = Raise (AttributeError "object has no attribute 'get'").
Proof.
  intros Hs Hj He. unfold validate_response, response_json.
  rewrite Hs, Hj. simpl. by rewrite He.
Qed.

(** C2. A response with status 400 whose decoded body holds, under
    ["error"] and then ["code"], a value equal to 283 makes
    [validate_response] raise [ResourceNotFoundError]. *)
Theorem validate_response_not_found (response : Response)
    (entries error : list (string * value)) (code : value) :
  status_code response = 400 →
  json response = Some (JDict entries) →
  dict_lookup "error" entries = Some (JDict error) →
  dict_lookup "code" error = Some code →
  py_eq_int code 283 = true →
  validate_response response = Raise ResourceNotFoundError.
Proof.
  intros Hs Hj He Hc Heq. unfold validate_response, response_json.
  rewrite Hs, Hj. simpl. rewrite He. simpl. rewrite Hc. simpl.
  by rewrite Heq.
Qed.

(** The body [{"error": {"code": 283}}] of the specification. *)
Lemma validate_response_not_found_witness :
  validate_response
    (mkResponse 400 ∅ (Some (JDict [("error", JDict [("code", JInt 283)])])))
  = Raise ResourceNotFoundError.
Proof.
  apply (validate_response_not_found _
           [("error", JDict [("code", JInt 283)])] [("code", JInt 283)]
           (JInt 283)); reflexivity.
Defined.

(** A float 283.0 in the body is the same error code. *)
Lemma validate_response_not_found_float :
  validate_response
    (mkResponse 400 ∅
       (Some (JDict [("error", JDict [("code", JFloat 283%float)])])))
  = Raise ResourceNotFoundError.
Proof. vm_compute. reflexivity. Qed.

(** ** Running the monadic code *)

Lemma bind_Return {Σ A B} (m : ST Σ A) (f : A → ST Σ B) (st st' : Σ) (b : B) :
  (m ≫= f) st = (Return b, st') →
  ∃ a st1, m st = (Return a, st1) ∧ f a st1 = (Return b, st').
Proof.
  unfold mbind, ST_bind. destruct (m st) as [[a|e] st1]; [eauto | done].
Qed.

Lemma bind_run {Σ A B} (m : ST Σ A) (f : A → ST Σ B) (st st1 : Σ) (a : A) :
  m st = (Return a, st1) → (m ≫= f) st = f a st1.
Proof. unfold mbind, ST_bind. by intros ->. Qed.

Lemma bind_raise {Σ A B} (m : ST Σ A) (f : A → ST Σ B) (st st1 : Σ) (e : exn) :
  m st = (Raise e, st1) → (m ≫= f) st = (Raise e, st1).
Proof. unfold mbind, ST_bind. by intros ->. Qed.

Lemma method_allowed_spec (method : string) :
  method_allowed method = true ↔ method ∈ http_methods.
Proof.
  unfold method_allowed. rewrite existsb_exists. split.
  - intros (m & Hin & Heq). apply String.eqb_eq in Heq as ->.
    by apply list_elem_of_In.
  - intros Hin. exists method. split; [by apply list_elem_of_In|].
    apply String.eqb_refl.
Qed.

Lemma method_allowed_false (method : string) :
  method_allowed method = false ↔ method ∉ http_methods.
Proof.
  rewrite <- method_allowed_spec. by destruct (method_allowed method).
Qed.

(** For a dictionary body, true in a condition means non-empty. *)
Lemma truthy_JDict (entries : list (string * value)) :
  truthy (JDict entries) = true ↔ entries ≠ [].
Proof. by destruct entries. Qed.

(** ** The header dictionaries *)

Lemma read_write_dict (r : dict_ref) (h : headers) (st : State) :
  read_dict r (write_dict r h st) = h.
Proof. destruct r; simpl; [done..|]. by rewrite lookup_insert_eq. Qed.

(** The header statements touch one dictionary and nothing else of the
    world. *)
Lemma headers_updated_world (header_params : option dict_ref) (body : value)
    (st : State) :
  let st0 := headers_updated header_params body st in
  sessions_created (world st0) = sessions_created (world st) ∧
  http_log (world st0) = http_log (world st) ∧
  started (world st0) = started (world st) ∧
  callback_log (world st0) = callback_log (world st).
Proof.
  unfold headers_updated. destruct header_params as [r|]; [|done].
  destruct (truthy body && _); [|done]. by destruct r.
Qed.

(** Of the client they keep the token, the last response and the identity
    of the session, and they keep the host of the configuration. *)
Lemma headers_updated_client (header_params : option dict_ref) (body : value)
    (st : State) :
  let st0 := headers_updated header_params body st in
  access_token (self st0) = access_token (self st) ∧
  last_response (self st0) = last_response (self st) ∧
  session_id (session (self st0)) = session_id (session (self st)).
Proof.
  unfold headers_updated. destruct header_params as [r|]; [|done].
  destruct (truthy body && _); [|done]. by destruct r.
Qed.

Lemma headers_updated_host (header_params : option dict_ref) (body : value)
    (st : State) :
  configuration (self (headers_updated header_params body st)) !! "host"
  = configuration (self st) !! "host".
Proof.
  unfold headers_updated. destruct header_params as [r|]; [|done].
  destruct (truthy body && _); [|done].
  destruct r; simpl; try done. by rewrite lookup_insert_ne.
Qed.

(** [validate_response] hands back the response it was given. *)
Lemma validate_response_Return (response response' : Response) :
  validate_response response = Return response' → response' = response.
Proof.
  unfold validate_response.
  destruct (in_range _ _ _ && bound_method_truth); [by intros [= <-]|].
  destruct (_ =? 400); [|done].
  destruct (response_json response) as [body|]; simpl; [|done].
  destruct (py_get body "error") as [error|]; simpl; [|done].
  destruct (py_get error "code") as [code|]; simpl; [|done].
  by destruct (py_eq_int code 283).
Qed.

Section TransportProperties.

Variable network : list HttpCall → HttpCall → result Response.
Variable requests_default_headers : headers.

(** ** [request] *)

(** With an allowed method, [request] hands exactly its arguments to
    [session.request]. *)
Lemma request_logs (method url : string) (s : Session)
    (header_params : option headers) (params : option query) (body : value)
    (st : State) :
  method ∈ http_methods →
  (request network method url s header_params params body st).2
  = log_call (mkHttpCall s method url header_params params body) st.
Proof.
  intros Hm. apply method_allowed_spec in Hm.
  unfold request. rewrite Hm. simpl.
  unfold mbind, ST_bind, session_request, lift.
  destruct (network _ _) as [response|]; [|done].
  destruct (validate_response response) as [response'|]; [|done].
  by destruct (response_json response').
Qed.

(** When [request] returns, the method was allowed, the transport
    answered with a response that passed validation and decoded, and
    the result is built from that response. *)
Lemma request_Return (method url : string) (s : Session)
    (header_params : option headers) (params : option query) (body : value)
    (st st' : State) (r : ResponseResult) :
  request network method url s header_params params body st = (Return r, st') →
  let c := mkHttpCall s method url header_params params body in
  ∃ response v,
    method ∈ http_methods ∧
    network (http_log (world st)) c = Return response ∧
    validate_response response = Return response ∧
    json response = Some v ∧
    r = mkResponseResult (status_code response) (response_headers response) v ∧
    st' = log_call c st.
Proof.
  unfold request. destruct (method_allowed method) eqn:Hm; [|done].
  simpl. unfold mbind, ST_bind, session_request, lift.
  destruct (network _ _) as [response|] eqn:Hn; [|done].
  destruct (validate_response response) as [response'|] eqn:Hv; [|done].
  pose proof (validate_response_Return _ _ Hv) as ->.
  unfold response_json.
  destruct (json response) as [v|] eqn:Hj; [|done].
  intros [= <- <-]. exists response, v.
  by rewrite <- method_allowed_spec.
Qed.

(** C1. When the transport answers a call of [request] with a response
    whose status is between 200 and 204 and whose body decodes to [v],
    [request] returns the status code, the headers and [v], and raises
    nothing. (A response exists only for an allowed method: [request]
    checks the method before it calls the transport.) *)
Theorem request_success (method url : string) (s : Session)
    (header_params : option headers) (params : option query) (body : value)
    (st : State) (response : Response) (v : value) :
  method ∈ http_methods →
  network (http_log (world st))
          (mkHttpCall s method url header_params params body)
    = Return response →
  200 ≤ status_code response ≤ 204 →
  json response = Some v →
  request network method url s header_params params body st
  = (Return (mkResponseResult (status_code response)
                              (response_headers response) v),
     log_call (mkHttpCall s method url header_params params body) st).
Proof.
  intros Hm Hn Hs Hj. apply method_allowed_spec in Hm.
  unfold request. rewrite Hm. simpl.
  unfold mbind, ST_bind, session_request, lift. rewrite Hn.
  rewrite (validate_response_2xx _ Hs).
  unfold response_json. by rewrite Hj.
Qed.

Lemma request_not_allowed (method url : string) (s : Session)
    (header_params : option headers) (params : option query) (body : value)
    (st : State) :
  method_allowed method = false →
  request network method url s header_params params body st
  = (Raise InvalidHttpMethodError, st).
Proof. intros Hm. unfold request. by rewrite Hm. Qed.

(** A success status with a body that does not decode: validation lets
    the response through and [response.json()] raises. *)
Lemma request_2xx_undecodable (method url : string) (s : Session)
    (header_params : option headers) (params : option query) (body : value)
    (st : State) (response : Response) :
  method ∈ http_methods →
  network (http_log (world st))
          (mkHttpCall s method url header_params params body)
    = Return response →
  200 ≤ status_code response ≤ 204 →
  json response = None →
  request network method url s header_params params body st
  = (Raise JSONDecodeError,
     log_call (mkHttpCall s method url header_params params body) st).
Proof.
  intros Hm Hn Hs Hj. apply method_allowed_spec in Hm.
  unfold request. rewrite Hm. simpl.
  unfold mbind, ST_bind, session_request, lift. rewrite Hn.
  rewrite (validate_response_2xx _ Hs).
  unfold response_json. by rewrite Hj.
Qed.

(** C5. A method outside POST, PUT, GET, DELETE makes [request] raise
    [InvalidHttpMethodError] and leave the state as it was: nothing is
    handed to the transport. *)
Theorem request_invalid_method (method url : string) (s : Session)
    (header_params : option headers) (params : option query) (body : value)
    (st : State) :
  method ∉ http_methods →
  request network method url s header_params params body st
  = (Raise InvalidHttpMethodError, st).
Proof.
  intros Hm. apply request_not_allowed. by apply method_allowed_false.
Qed.

(** ** [__call_api] *)

(** The two header statements: they leave the state [headers_updated],
    and the dictionary they leave in [header_params] has, when it is later
    handed over, the contents of the one passed, with Content-Type set
    when the body is true in a condition. *)
Lemma header_lines (header_params : option dict_ref) (body : value)
    (st : State) :
  ∃ p p' : dict_place,
    or_new_dict header_params st = (Return p, st) ∧
    (if truthy body
     then dict_update p {[ "Content-Type" := "application/json" ]}
     else mret p) st
    = (Return p', headers_updated header_params body st) ∧
    ∀ s : State,
      (∀ r, read_dict r s
            = read_dict r (headers_updated header_params body st)) →
      place_contents p' s
      = (Return (if truthy body
                 then <["Content-Type" := "application/json"]>
                        (header_contents header_params st)
                 else header_contents header_params st), s).
Proof.
  unfold or_new_dict, headers_updated, header_contents.
  destruct header_params as [r|].
  - destruct (decide (read_dict r st = ∅)) as [He|He].
    + rewrite (bool_decide_eq_true_2 _ He), andb_false_r.
      destruct (truthy body); eexists _, _; (split; [done|]);
        (split; [done|]); intros s _; simpl; rewrite He;
        [by rewrite insert_union_singleton_l | done].
    + rewrite (bool_decide_eq_false_2 _ He), andb_true_r.
      destruct (truthy body); eexists _, _; (split; [done|]).
      * split; [simpl; by rewrite insert_union_singleton_l|].
        intros s Hs. simpl. rewrite Hs. by rewrite read_write_dict.
      * split; [done|]. intros s Hs. simpl. by rewrite Hs.
  - destruct (truthy body); eexists _, _; (split; [done|]);
      (split; [done|]); intros s _; simpl;
      [by rewrite insert_union_singleton_l | done].
Qed.

(** The synchronous body: after the header statements, the URL is the
    host followed by the path, the call goes through the client's own
    session, and the result is kept in [last_response] before it is
    returned. *)
Lemma call_api_body_sync (resource_path method : string)
    (header_params : option dict_ref) (params : option query) (body : value)
    (st : State) (host : string) :
  configuration (self st) !! "host" = Some host →
  __call_api network requests_default_headers resource_path method
             header_params params body None st
  = match request network method (host ++ resource_path)
            (session (self (headers_updated header_params body st)))
            (Some (if truthy body
                   then <["Content-Type" := "application/json"]>
                          (header_contents header_params st)
                   else header_contents header_params st))
            params body (headers_updated header_params body st)
    with
    | (Return r, st1) => (Return (Some r), store_last_response r st1)
    | (Raise e, st1) => (Raise e, st1)
    end.
Proof.
  intros Hh.
  destruct (header_lines header_params body st) as (p & p' & H1 & H2 & H3).
  rewrite <- (headers_updated_host header_params body) in Hh.
  unfold __call_api.
  rewrite (bind_run _ _ _ _ _ H1), (bind_run _ _ _ _ _ H2).
  set (st0 := headers_updated header_params body st) in *.
  rewrite (bind_run get_self _ st0 st0 (self st0) eq_refl).
  unfold mbind at 1. unfold ST_bind at 1. unfold lift, getitem.
  rewrite Hh.
  unfold mbind at 1. unfold ST_bind at 1. unfold mret at 1. unfold ST_ret at 1.
  rewrite (bind_run _ _ _ _ _ (H3 st0 (λ r, eq_refl))).
  unfold mbind at 1. unfold ST_bind at 1.
  by destruct (request _ _ _ _ _ _ _ _) as [[r|e] st1].
Qed.

(** The body run with a callback: after the header statements a session
    is created and loaded with the default headers, the call goes through
    it, the result is kept in [last_response], and the callback is called
    with it; what the callback raises, the body raises. *)
Lemma call_api_body_async (resource_path method : string)
    (header_params : option dict_ref) (params : option query) (body : value)
    (cb : Callback) (st : State) (host : string) :
  configuration (self st) !! "host" = Some host →
  __call_api network requests_default_headers resource_path method
             header_params params body (Some cb) st
  = match request network method (host ++ resource_path)
            (mkSession (sessions_created (world st))
                       (default_headers
                          (self (headers_updated header_params body st))
                        ∪ requests_default_headers))
            (Some (if truthy body
                   then <["Content-Type" := "application/json"]>
                          (header_contents header_params st)
                   else header_contents header_params st))
            params body (count_session (headers_updated header_params body st))
    with
    | (Return r, st1) =>
        (match callback_raises cb r with
         | Some e => Raise e
         | None => Return None
         end,
         record_callback cb r (store_last_response r st1))
    | (Raise e, st1) => (Raise e, st1)
    end.
Proof.
  intros Hh.
  destruct (header_lines header_params body st) as (p & p' & H1 & H2 & H3).
  rewrite <- (headers_updated_host header_params body) in Hh.
  pose proof (headers_updated_world header_params body st)
    as (Hsc & _ & _ & _).
  unfold __call_api.
  rewrite (bind_run _ _ _ _ _ H1), (bind_run _ _ _ _ _ H2).
  set (st0 := headers_updated header_params body st) in *.
  rewrite (bind_run get_self _ st0 st0 (self st0) eq_refl).
  unfold mbind at 1. unfold ST_bind at 1. unfold lift, getitem.
  rewrite Hh.
  unfold mbind at 1. unfold ST_bind at 1.
  unfold mbind at 1. unfold ST_bind at 1. unfold Session_new.
  unfold mret at 1. unfold ST_ret at 1.
  rewrite (bind_run _ _ _ _ _ (H3 (count_session st0) (λ r, eq_refl))).
  unfold session_headers_update. simpl. rewrite Hsc.
  unfold mbind at 1. unfold ST_bind at 1.
  destruct (request _ _ _ _ _ _ _ _) as [[r|e] st1]; [|done].
  unfold mbind at 1. unfold ST_bind at 1. unfold set_last_response.
  unfold mbind, ST_bind, invoke.
  by destruct (callback_raises cb r).
Qed.

(** Without a host in the configuration the body stops at [KeyError],
    after the header statements. *)
Lemma call_api_body_no_host (resource_path method : string)
    (header_params : option dict_ref) (params : option query) (body : value)
    (callback : option Callback) (st : State) :
  configuration (self st) !! "host" = None →
  __call_api network requests_default_headers resource_path method
             header_params params body callback st
  = (Raise (KeyError "host"), headers_updated header_params body st).
Proof.
  intros Hh.
  destruct (header_lines header_params body st) as (p & p' & H1 & H2 & H3).
  rewrite <- (headers_updated_host header_params body) in Hh.
  unfold __call_api.
  rewrite (bind_run _ _ _ _ _ H1), (bind_run _ _ _ _ _ H2).
  set (st0 := headers_updated header_params body st) in *.
  rewrite (bind_run get_self _ st0 st0 (self st0) eq_refl).
  unfold mbind at 1. unfold ST_bind at 1. unfold lift, getitem.
  by rewrite Hh.
Qed.

(** ** [call_api] *)

(** C7. When [call_api] is invoked without a callback and completes
    without error, one call was handed to the transport, on the client's
    own session, and no thread was started and no session created; the
    Response Result built from the answer is the value returned, and
    [last_response] holds that same result. *)
Theorem call_api_synchronous (resource_path method : string)
    (header_params : option dict_ref) (params : option query) (body : value)
    (st st' : State) (ret : CallApiReturn) :
  call_api network requests_default_headers resource_path method
           header_params params body None st = (Return ret, st') →
  ∃ (host : string) (response : Response) (v : value),
    let st0 := headers_updated header_params body st in
    let c := mkHttpCall (session (self st0)) method (host ++ resource_path)
               (Some (if truthy body
                      then <["Content-Type" := "application/json"]>
                             (header_contents header_params st)
                      else header_contents header_params st))
               params body in
    let r := mkResponseResult (status_code response)
                              (response_headers response) v in
    configuration (self st) !! "host" = Some host ∧
    session_id (session (self st0)) = session_id (session (self st)) ∧
    network (http_log (world st)) c = Return response ∧
    json response = Some v ∧
    http_log (world st') = (http_log (world st) ++ [c])%list ∧
    started (world st') = started (world st) ∧
    sessions_created (world st') = sessions_created (world st) ∧
    ret = ReturnedValue (Some r) ∧
    last_response (self st') = Some r.
Proof.
  intros H. unfold call_api in H.
  apply bind_Return in H as (o & st1 & H & Hret).
  injection Hret as <- <-.
  destruct (configuration (self st) !! "host") as [host|] eqn:Hh;
    [|by rewrite call_api_body_no_host in H].
  rewrite (call_api_body_sync _ _ _ _ _ _ host Hh) in H.
  destruct (request _ _ _ _ _ _ _ _) as [[r|e] st2] eqn:Hr; [|done].
  injection H as <- <-.
  apply request_Return in Hr as (response & v & _ & Hn & _ & Hj & -> & ->).
  pose proof (headers_updated_world header_params body st)
    as (Hsc & Hlog & Hth & _).
  pose proof (headers_updated_client header_params body st) as (_ & _ & Hid).
  exists host, response, v. simpl. rewrite Hlog in Hn.
  by rewrite Hn, Hj, Hlog, Hth, Hsc, Hid.
Qed.


Lemma init_session_registered (token : string) (w : World) :
  session_registered (__init__ requests_default_headers token w).
Proof. unfold session_registered. simpl. lia. Qed.

(** C9. With a callback, [call_api] returns a thread it has just started,
    whose target arguments are its own: the list of started threads has
    grown by that thread, and nothing else has changed (no call was made,
    no result stored). When the thread's body then runs to completion,
    from any state in which the primary session exists, it has created a
    session that is not the primary one, loaded it with the default
    headers, handed to the transport through it the call the synchronous
    path would make, and invoked the callback once, with the Response
    Result built from the answer. *)
Theorem call_api_asynchronous (resource_path method : string)
    (header_params : option dict_ref) (params : option query) (body : value)
    (cb : Callback) (st : State) :
  let t := mkThread (length (started (world st)))
             (mkCallArgs resource_path method header_params params body
                         (Some cb)) in
  let out := call_api network requests_default_headers resource_path method
               header_params params body (Some cb) st in
  (out.1 = Return (ReturnedThread t) ∧
   started (world out.2) = (started (world st) ++ [t])%list ∧
   self out.2 = self st ∧
   http_log (world out.2) = http_log (world st) ∧
   sessions_created (world out.2) = sessions_created (world st) ∧
   callback_log (world out.2) = callback_log (world st) ∧
   caller_dicts (world out.2) = caller_dicts (world st))
  ∧ ∀ st1 st2 : State,
      session_registered st1 →
      Thread_run network requests_default_headers t st1 = (Return tt, st2) →
      ∃ (host : string) (response : Response) (v : value),
        let st0 := headers_updated header_params body st1 in
        let fresh := mkSession (sessions_created (world st1))
                       (default_headers (self st0) ∪ requests_default_headers) in
        let c := mkHttpCall fresh method (host ++ resource_path)
                   (Some (if truthy body
                          then <["Content-Type" := "application/json"]>
                                 (header_contents header_params st1)
                          else header_contents header_params st1))
                   params body in
        let r := mkResponseResult (status_code response)
                                  (response_headers response) v in
        configuration (self st1) !! "host" = Some host ∧
        session_id fresh ≠ session_id (session (self st1)) ∧
        fresh ≠ session (self st0) ∧
        network (http_log (world st1)) c = Return response ∧
        json response = Some v ∧
        callback_raises cb r = None ∧
        http_log (world st2) = (http_log (world st1) ++ [c])%list ∧
        sessions_created (world st2) = S (sessions_created (world st1)) ∧
        callback_log (world st2)
        = (callback_log (world st1) ++ [(cb, r)])%list.
Proof.
  split; [by repeat split|].
  intros st1 st2 Hreg H. unfold Thread_run in H. simpl in H.
  apply bind_Return in H as (o & st3 & H & Hret).
  injection Hret as <-.
  destruct (configuration (self st1) !! "host") as [host|] eqn:Hh;
    [|by rewrite call_api_body_no_host in H].
  rewrite (call_api_body_async _ _ _ _ _ _ _ host Hh) in H.
  destruct (request _ _ _ _ _ _ _ _) as [[r|e] st4] eqn:Hr; [|done].
  destruct (callback_raises cb r) eqn:Hcb; [done|].
  injection H as <- <-.
  apply request_Return in Hr as (response & v & _ & Hn & _ & Hj & -> & ->).
  pose proof (headers_updated_world header_params body st1)
    as (Hsc & Hlog & _ & Hcl).
  pose proof (headers_updated_client header_params body st1) as (_ & _ & Hid).
  unfold session_registered in Hreg.
  exists host, response, v. simpl. simpl in Hn. rewrite Hlog in Hn.
  rewrite Hn, Hj, Hlog, Hsc, Hcl.
  split_and!; try done.
  - lia.
  - intros Heq. rewrite <- Hid, <- Heq in Hreg. simpl in Hreg. lia.
Qed.

(** ** The primary session stays registered *)

Lemma request_state (method url : string) (s : Session)
    (header_params : option headers) (params : option query) (body : value)
    (st : State) :
  let st' := (request network method url s header_params params body st).2 in
  self st' = self st ∧
  sessions_created (world st') = sessions_created (world st).
Proof.
  destruct (method_allowed method) eqn:Hm.
  - apply method_allowed_spec in Hm. simpl. by rewrite request_logs.
  - simpl. by rewrite request_not_allowed.
Qed.

Lemma call_api_body_registered (resource_path method : string)
    (header_params : option dict_ref) (params : option query) (body : value)
    (callback : option Callback) (st : State) :
  session_registered st →
  session_registered
    (__call_api network requests_default_headers resource_path method
                header_params params body callback st).2.
Proof.
  unfold session_registered. intros Hreg.
  pose proof (headers_updated_world header_params body st)
    as (Hsc & _ & _ & _).
  pose proof (headers_updated_client header_params body st) as (_ & _ & Hid).
  destruct (configuration (self st) !! "host") as [host|] eqn:Hh;
    [|rewrite call_api_body_no_host by done; simpl in *; lia].
  destruct callback as [cb|].
  - rewrite (call_api_body_async _ _ _ _ _ _ _ host Hh).
    match goal with |- context [request network ?m ?u ?s ?h ?p ?b ?x] =>
      destruct (request_state m u s h p b x) as [Hs Hc];
      destruct (request network m u s h p b x) as [[r|e] st1] end;
      simpl in *; rewrite ?Hs, Hc; lia.
  - rewrite (call_api_body_sync _ _ _ _ _ _ host Hh).
    match goal with |- context [request network ?m ?u ?s ?h ?p ?b ?x] =>
      destruct (request_state m u s h p b x) as [Hs Hc];
      destruct (request network m u s h p b x) as [[r|e] st1] end;
      simpl in *; rewrite ?Hs, Hc; lia.
Qed.

Lemma call_api_registered (resource_path method : string)
    (header_params : option dict_ref) (params : option query) (body : value)
    (callback : option Callback) (st : State) :
  session_registered st →
  session_registered
    (call_api network requests_default_headers resource_path method
              header_params params body callback st).2.
Proof.
  intros Hreg. destruct callback as [cb|]; [done|].
  unfold call_api, mbind, ST_bind.
  pose proof (call_api_body_registered resource_path method header_params
                params body None st Hreg) as H.
  by destruct (__call_api _ _ _ _ _ _ _ _ _) as [[o|e] st1].
Qed.

Lemma Thread_run_registered (t : Thread) (st : State) :
  session_registered st →
  session_registered
    (Thread_run network requests_default_headers t st).2.
Proof.
  intros Hreg. unfold Thread_run, mbind, ST_bind.
  pose proof (call_api_body_registered (arg_resource_path (thread_args t))
                (arg_method (thread_args t)) (arg_header_params (thread_args t))
                (arg_params (thread_args t)) (arg_body (thread_args t))
                (arg_callback (thread_args t)) st Hreg) as H.
  by destruct (__call_api _ _ _ _ _ _ _ _ _) as [[o|e] st1].
Qed.

End TransportProperties.

(** ** Dictionaries *)

Lemma dict_lookup_set_eq (key : string) (val : pyval) (d : dict) :
  dict_lookup key (dict_set key val d) = Some val.
Proof.
  induction d as [|[k v] rest IH]; simpl.
  - by rewrite String.eqb_refl.
  - destruct (String.eqb k key) eqn:E; simpl; by rewrite E.
Qed.

Lemma dict_lookup_set_ne (key key' : string) (val : pyval) (d : dict) :
  key ≠ key' →
  dict_lookup key' (dict_set key val d) = dict_lookup key' d.
Proof.
  intros Hne. induction d as [|[k v] rest IH]; simpl.
  - by apply String.eqb_neq in Hne as ->.
  - destruct (String.eqb k key) eqn:E; simpl.
    + apply String.eqb_eq in E as ->.
      by apply String.eqb_neq in Hne as ->.
    + by rewrite IH.
Qed.

Lemma dict_lookup_remove_eq (key : string) (d : dict) :
  dict_lookup key (dict_remove key d) = None.
Proof.
  induction d as [|[k v] rest IH]; simpl; [done|].
  destruct (String.eqb k key) eqn:E; simpl; [done|]. by rewrite E.
Qed.

Lemma dict_lookup_remove_ne (key key' : string) (d : dict) :
  key ≠ key' →
  dict_lookup key' (dict_remove key d) = dict_lookup key' d.
Proof.
  intros Hne. induction d as [|[k v] rest IH]; simpl; [done|].
  destruct (String.eqb k key) eqn:E; simpl.
  - apply String.eqb_eq in E as ->.
    by apply String.eqb_neq in Hne as ->.
  - by rewrite IH.
Qed.

Lemma dict_lookup_keys (key : string) (d : dict) :
  is_Some (dict_lookup key d) ↔ key ∈ keys d.
Proof.
  unfold keys. induction d as [|[k v] rest IH]; simpl.
  - split; [by intros [? ?] | by intros ?%elem_of_nil].
  - rewrite elem_of_cons. destruct (String.eqb_spec k key) as [->|Hne].
    + split; [by left | by eexists].
    + rewrite IH. split; [by right | by intros [->|?]].
Qed.

Lemma assign_all_cons (key : string) (val : pyval) (rest d : dict) :
  assign_all ((key, val) :: rest) d = assign_all rest (dict_set key val d).
Proof. done. Qed.

Lemma assign_all_app (pre post d : dict) :
  assign_all (pre ++ post) d = assign_all post (assign_all pre d).
Proof. unfold assign_all. apply foldl_app. Qed.

(** Keys outside [items] keep their value. *)
Lemma dict_lookup_assign_all_other (key : string) (items d : dict) :
  key ∉ keys items →
  dict_lookup key (assign_all items d) = dict_lookup key d.
Proof.
  unfold keys. revert d. induction items as [|[k v] rest IH]; intros d Hk.
  - done.
  - rewrite assign_all_cons. simpl in Hk. apply not_elem_of_cons in Hk as [Hne Hk].
    rewrite IH by done. by apply dict_lookup_set_ne.
Qed.

(** Every entry of [items] is found afterwards, when [items] has no
    repeated key. *)
Lemma dict_lookup_assign_all_entry (key : string) (val : pyval) (items d : dict) :
  NoDup (keys items) →
  (key, val) ∈ items →
  dict_lookup key (assign_all items d) = Some val.
Proof.
  unfold keys. revert d. induction items as [|[k v] rest IH]; intros d Hnd Hin.
  - by apply elem_of_nil in Hin.
  - rewrite assign_all_cons. simpl in Hnd. apply NoDup_cons in Hnd as [Hk Hnd].
    apply elem_of_cons in Hin as [[= -> ->]|Hin].
    + rewrite dict_lookup_assign_all_other by done.
      apply dict_lookup_set_eq.
    + by apply IH.
Qed.

(** Assignments never remove a key. *)
Lemma dict_lookup_assign_all_is_Some (key : string) (items d : dict) :
  is_Some (dict_lookup key d) → is_Some (dict_lookup key (assign_all items d)).
Proof.
  revert d. induction items as [|[k v] rest IH]; intros d Hd; [done|].
  rewrite assign_all_cons. apply IH.
  destruct (decide (k = key)) as [->|Hne].
  - rewrite dict_lookup_set_eq. by eexists.
  - by rewrite dict_lookup_set_ne.
Qed.

Lemma allowed_spec (all_params : list string) (key : string) :
  allowed all_params key = true ↔ key ∈ all_params.
Proof.
  unfold allowed. rewrite existsb_exists. split.
  - intros (k & Hin & Heq). apply String.eqb_eq in Heq as ->.
    by apply list_elem_of_In.
  - intros Hin. exists key. split; [by apply list_elem_of_In|].
    apply String.eqb_refl.
Qed.

Lemma allowed_false (all_params : list string) (key : string) :
  allowed all_params key = false ↔ key ∉ all_params.
Proof.
  rewrite <- allowed_spec. by destruct (allowed all_params key).
Qed.

(** ** [clean_kwargs] *)

(** The loop, when every key is allowed: each entry is assigned into the
    dictionary at [params]. *)
Lemma merge_items_allowed (all_params : list string) (params : loc)
    (items d : dict) (h : store) :
  h !! params = Some d →
  (∀ key, key ∈ keys items → key ∈ all_params) →
  merge_items all_params params items h
  = (Return tt, <[params := assign_all items d]> h).
Proof.
  unfold keys. revert d h.
  induction items as [|[k v] rest IH]; intros d h Hd Hall.
  - simpl. unfold mret, ST_ret. by rewrite insert_id.
  - simpl. assert (allowed all_params k = true) as ->
      by (apply allowed_spec, Hall; simpl; apply elem_of_cons; by left).
    simpl. unfold mbind, ST_bind, setitem, deref, assign.
    unfold mbind, ST_bind. rewrite Hd.
    rewrite (IH (dict_set k v d)).
    + by rewrite insert_insert_eq.
    + apply lookup_insert_eq.
    + intros key Hk. apply Hall. simpl. apply elem_of_cons. by right.
Qed.

(** The loop, when it meets a key that is not allowed: the entries before
    it have been assigned, and the [TypeError] names the key. *)
Lemma merge_items_rejected (all_params : list string) (params : loc)
    (pre post d : dict) (key : string) (val : pyval) (h : store) :
  h !! params = Some d →
  (∀ k, k ∈ keys pre → k ∈ all_params) →
  key ∉ all_params →
  merge_items all_params params (pre ++ (key, val) :: post) h
  = (Raise (TypeError (unexpected_keyword key)),
     <[params := assign_all pre d]> h).
Proof.
  unfold keys. revert d h.
  induction pre as [|[k v] rest IH]; intros d h Hd Hall Hkey.
  - simpl. apply allowed_false in Hkey as ->. simpl.
    unfold raise. by rewrite insert_id.
  - simpl. assert (allowed all_params k = true) as ->
      by (apply allowed_spec, Hall; simpl; apply elem_of_cons; by left).
    simpl. unfold mbind, ST_bind, setitem, deref, assign.
    unfold mbind, ST_bind. rewrite Hd.
    rewrite (IH (dict_set k v d)).
    + by rewrite insert_insert_eq.
    + apply lookup_insert_eq.
    + intros k' Hk. apply Hall. simpl. apply elem_of_cons. by right.
    + done.
Qed.

(** The first key of [items] that is not allowed, with what precedes it. *)
Lemma first_rejected (all_params : list string) (items : dict) :
  (∃ key, key ∈ keys items ∧ key ∉ all_params) →
  ∃ pre key val post,
    items = (pre ++ (key, val) :: post)%list ∧
    (∀ k, k ∈ keys pre → k ∈ all_params) ∧
    key ∉ all_params.
Proof.
  unfold keys. induction items as [|[k v] rest IH]; intros (key & Hin & Hno).
  - by apply elem_of_nil in Hin.
  - destruct (decide (k ∈ all_params)) as [Hk|Hk].
    + simpl in Hin. apply elem_of_cons in Hin as [->|Hin]; [done|].
      destruct IH as (pre & key' & val & post & -> & Hpre & Hkey'); [by eauto|].
      exists ((k, v) :: pre), key', val, post. split; [done|]. split; [|done].
      intros k' Hk'. simpl in Hk'. apply elem_of_cons in Hk' as [->|Hk']; auto.
    + exists [], k, v, rest. split; [done|]. split; [|done].
      by intros k' ?%elem_of_nil.
Qed.

(** The whole function on a mapping with a bucket of allowed keys. *)
Lemma clean_kwargs_allowed (all_params : list string) (params bucket : loc)
    (h : store) (d items : dict) :
  h !! params = Some d →
  dict_lookup "kwargs" d = Some (VRef bucket) →
  h !! bucket = Some items →
  (∀ key, key ∈ keys items → key ∈ all_params) →
  clean_kwargs all_params params h
  = (Return params,
     <[params := dict_remove "kwargs" (assign_all items d)]> h).
Proof.
  intros Hd Hk Hb Hall. unfold clean_kwargs.
  unfold mbind at 1. unfold ST_bind at 1.
  unfold subscript, mbind at 1. unfold ST_bind at 1. unfold deref at 1.
  rewrite Hd, Hk. unfold mret at 1. unfold ST_ret at 1.
  unfold mbind at 1. unfold ST_bind at 1. unfold iteritems, deref at 1.
  rewrite Hb.
  unfold mbind at 1. unfold ST_bind at 1.
  rewrite (merge_items_allowed _ _ _ d) by done.
  unfold mbind at 1. unfold ST_bind at 1.
  unfold delitem, mbind at 1. unfold ST_bind at 1. unfold deref.
  rewrite lookup_insert_eq.
  destruct (dict_lookup_assign_all_is_Some "kwargs" items d) as [x Hx];
    [by rewrite Hk|].
  rewrite Hx. unfold assign, mret, ST_ret. by rewrite insert_insert_eq.
Qed.

(** The whole function on a mapping whose bucket holds a key that is not
    allowed: it stops inside the loop. *)
Lemma clean_kwargs_rejected (all_params : list string) (params bucket : loc)
    (h : store) (d pre post : dict) (key : string) (val : pyval) :
  h !! params = Some d →
  dict_lookup "kwargs" d = Some (VRef bucket) →
  h !! bucket = Some (pre ++ (key, val) :: post)%list →
  (∀ k, k ∈ keys pre → k ∈ all_params) →
  key ∉ all_params →
  clean_kwargs all_params params h
  = (Raise (TypeError (unexpected_keyword key)),
     <[params := assign_all pre d]> h).
Proof.
  intros Hd Hk Hb Hall Hkey. unfold clean_kwargs.
  unfold mbind at 1. unfold ST_bind at 1.
  unfold subscript, mbind at 1. unfold ST_bind at 1. unfold deref at 1.
  rewrite Hd, Hk. unfold mret at 1. unfold ST_ret at 1.
  unfold mbind at 1. unfold ST_bind at 1. unfold iteritems, deref at 1.
  rewrite Hb.
  unfold mbind at 1. unfold ST_bind at 1.
  by rewrite (merge_items_rejected _ _ _ _ d) by done.
Qed.

(** C6, as the code has it. For a mapping at [params] with a bucket
    under ["kwargs"]: if some key of the bucket is not in the allow-list,
    [clean_kwargs] raises a [TypeError] whose message names the first such
    key in iteration order (every key before it is in the allow-list);
    otherwise it returns [params], whose dictionary now has no ["kwargs"]
    key, holds every bucket entry whose key is not ["kwargs"], and is
    unchanged under every other key. *)
Theorem clean_kwargs_filters (all_params : list string) (params bucket : loc)
    (h : store) (d items : dict) :
  h !! params = Some d →
  dict_lookup "kwargs" d = Some (VRef bucket) →
  h !! bucket = Some items →
  NoDup (keys items) →
  ((∃ key, key ∈ keys items ∧ key ∉ all_params) →
   ∃ (pre : dict) (key : string) (val : pyval) (post : dict) (h' : store),
     items = (pre ++ (key, val) :: post)%list ∧
     (∀ k, k ∈ keys pre → k ∈ all_params) ∧
     key ∈ keys items ∧ (key ∉ all_params) ∧
     clean_kwargs all_params params h
     = (Raise (TypeError (unexpected_keyword key)), h'))
  ∧
  ((∀ key, key ∈ keys items → key ∈ all_params) →
   ∃ d',
     clean_kwargs all_params params h = (Return params, <[params := d']> h) ∧
     dict_lookup "kwargs" d' = None ∧
     (∀ key val, (key, val) ∈ items → key ≠ "kwargs" →
                 dict_lookup key d' = Some val) ∧
     (∀ key, key ∉ keys items → key ≠ "kwargs" →
             dict_lookup key d' = dict_lookup key d)).
Proof.
  intros Hd Hk Hb Hnd. split.
  - intros Hex.
    destruct (first_rejected all_params items Hex)
      as (pre & key & val & post & -> & Hpre & Hkey).
    exists pre, key, val, post, (<[params := assign_all pre d]> h).
    split; [done|]. split; [done|].
    split; [|split; [done|] ].
    + unfold keys. rewrite fmap_app, elem_of_app. right. simpl.
      apply elem_of_cons. by left.
    + by apply (clean_kwargs_rejected _ _ bucket _ _ pre post key val).
  - intros Hall. exists (dict_remove "kwargs" (assign_all items d)).
    split; [by apply (clean_kwargs_allowed _ _ bucket)|].
    split; [apply dict_lookup_remove_eq|]. split.
    + intros key val Hin Hne. rewrite dict_lookup_remove_ne by done.
      by apply dict_lookup_assign_all_entry.
    + intros key Hin Hne. rewrite dict_lookup_remove_ne by done.
      by apply dict_lookup_assign_all_other.
Qed.

(** What each store operation does when it returns. *)
Lemma deref_Return (l : loc) (h h' : store) (d : dict) :
  deref l h = (Return d, h') → h' = h ∧ h !! l = Some d.
Proof. unfold deref. destruct (h !! l); [by intros [= <- <-] | done]. Qed.

Lemma subscript_Return (params : loc) (key : string) (h h' : store) (v : pyval) :
  subscript params key h = (Return v, h') →
  h' = h ∧ ∃ d, h !! params = Some d ∧ dict_lookup key d = Some v.
Proof.
  unfold subscript. intros (d & h0 & [-> Hd]%deref_Return & H)%bind_Return.
  destruct (dict_lookup key d) eqn:Hk; [|done].
  injection H as <- <-. eauto.
Qed.

Lemma iteritems_Return (x : pyval) (h h' : store) (items : dict) :
  iteritems x h = (Return items, h') → h' = h.
Proof.
  destruct x; try done. simpl. by intros [-> _]%deref_Return.
Qed.

Lemma setitem_frame (params l : loc) (key : string) (val : pyval)
    (h h' : store) (u : unit) :
  setitem params key val h = (Return u, h') → l ≠ params → h' !! l = h !! l.
Proof.
  unfold setitem. intros (d & h0 & [-> _]%deref_Return & H)%bind_Return Hl.
  injection H as _ <-. by rewrite lookup_insert_ne.
Qed.

Lemma delitem_Return (params : loc) (key : string) (h h' : store) (u : unit) :
  delitem params key h = (Return u, h') →
  ∃ d, h !! params = Some d ∧ h' = <[params := dict_remove key d]> h.
Proof.
  unfold delitem. intros (d & h0 & [-> Hd]%deref_Return & H)%bind_Return.
  destruct (dict_lookup key d); [|done].
  injection H as _ <-. eauto.
Qed.

Lemma merge_items_frame (all_params : list string) (params l : loc)
    (items : dict) (h h' : store) (u : unit) :
  merge_items all_params params items h = (Return u, h') →
  l ≠ params → h' !! l = h !! l.
Proof.
  intros H Hl. revert h H.
  induction items as [|[k v] rest IH]; intros h H.
  - by injection H as _ <-.
  - simpl in H. destruct (allowed all_params k); [|done]. simpl in H.
    apply bind_Return in H as (u' & h0 & Hset & H).
    rewrite (IH _ H). by apply (setitem_frame _ _ _ _ _ _ _ Hset).
Qed.

(** C10. [clean_kwargs] works on the dictionary it is given: when it
    returns, what it returns is the reference it received, the dictionary
    behind that reference has lost the ["kwargs"] key it had, and no other
    object of the store is touched. A failure therefore leaves its
    assignments behind: on the mapping [{"kwargs": {"a": 1, "c": 2}}] with
    allow-list [a, b] the call raises for ["c"], and afterwards the mapping
    holds ["a"] and still holds its bucket under ["kwargs"], so it is not
    the mapping it was. *)
Theorem clean_kwargs_in_place :
  (∀ (all_params : list string) (params r : loc) (h h' : store),
     clean_kwargs all_params params h = (Return r, h') →
     r = params ∧
     (∃ d d', h !! params = Some d ∧ h' !! params = Some d' ∧
              is_Some (dict_lookup "kwargs" d) ∧
              dict_lookup "kwargs" d' = None) ∧
     ∀ l, l ≠ params → h' !! l = h !! l)
  ∧
  (∃ h' : store,
     clean_kwargs ["a"; "b"] 1%positive store_a_c
     = (Raise (TypeError (unexpected_keyword "c")), h') ∧
     store_a_c !! 1%positive = Some [("kwargs", VRef 2)] ∧
     h' !! 1%positive = Some [("kwargs", VRef 2); ("a", VInt 1)] ∧
     h' !! 1%positive ≠ store_a_c !! 1%positive).
Proof.
  split.
  - intros all_params params r h h' H. unfold clean_kwargs in H.
    apply bind_Return in H as (x & h1 & Hsub & H).
    apply bind_Return in H as (items & h2 & Hit & H).
    apply bind_Return in H as (u & h3 & Hmerge & H).
    apply bind_Return in H as (u' & h4 & Hdel & H).
    injection H as <- <-.
    apply subscript_Return in Hsub as (-> & d & Hd & Hk).
    apply iteritems_Return in Hit as ->.
    apply delitem_Return in Hdel as (d3 & Hd3 & ->).
    split; [done|]. split.
    + exists d, (dict_remove "kwargs" d3).
      rewrite lookup_insert_eq, Hk, dict_lookup_remove_eq. eauto.
    + intros l Hl. rewrite lookup_insert_ne by done.
      by apply (merge_items_frame _ _ _ _ _ _ _ Hmerge).
  - eexists. split; [vm_compute; reflexivity|].
    split; [done|]. split; [done|]. done.
Qed.

(** When the bucket is the mapping itself, the loop assigns to each key
    the value it already has: the dictionary does not change while it is
    iterated. *)
Lemma dict_set_same (key : string) (val : pyval) (d : dict) :
  dict_lookup key d = Some val → dict_set key val d = d.
Proof.
  induction d as [|[k v] rest IH]; simpl; [done|].
  destruct (String.eqb_spec k key) as [->|Hne].
  - by intros [= ->].
  - intros H. by rewrite IH.
Qed.

Lemma assign_all_same (items d : dict) :
  (∀ key val, (key, val) ∈ items → dict_lookup key d = Some val) →
  assign_all items d = d.
Proof.
  induction items as [|[k v] rest IH]; intros H; [done|].
  rewrite assign_all_cons, dict_set_same.
  - apply IH. intros key val Hin. apply H, elem_of_cons. by right.
  - apply H, elem_of_cons. by left.
Qed.

(** * The specification's examples and the claims at concrete inputs *)

(** ** Access token *)

(** C4. The constructor tests for ["Bearer"] but prepends ["Barear "]: a
    token without the marker is stored, and sent as the Authorization
    header, with the misspelled marker. *)
Theorem init_misspells_scheme :
  let client := self (__init__ sample_session_headers "abc123" sample_world) in
  access_token client = "Barear abc123" ∧
  access_token client ≠ "Bearer abc123" ∧
  default_headers client !! "Authorization" = Some "Barear abc123" ∧
  session_headers (session client) !! "Authorization" = Some "Barear abc123".
Proof. vm_compute. by repeat split. Qed.

Example validate_access_token_keeps_bearer :
  __validate_access_token "Bearer abc123" = "Bearer abc123".
Proof. reflexivity. Qed.

(** ** Response validation *)

(** C3. Three responses that are neither a success with a JSON body nor
    the 400/283 case, on which the client does not raise [HttpCodeError]:
    a 200 whose body does not decode passes [validate_response] and makes
    [request] raise the decoder's error; a 400 whose body does not decode
    raises the decoder's error; a 400 whose body has no ["error"] entry
    raises [AttributeError]. *)
Theorem malformed_body_not_http_code_error :
  let url := "https://api.venmo.com/v1/me" in
  let s := session (self sample_state) in
  validate_response undecodable_response = Return undecodable_response ∧
  request (answering undecodable_response) "GET" url s None None JNull
          sample_state
  = (Raise JSONDecodeError,
     log_call (mkHttpCall s "GET" url None None JNull) sample_state) ∧
  validate_response (mkResponse 400 ∅ None) = Raise JSONDecodeError ∧
  validate_response
    (mkResponse 400 ∅ (Some (JDict [("message", JStr "Bad request")])))
  = Raise (AttributeError "object has no attribute 'get'").
Proof. by repeat split. Qed.

Example validate_response_500 :
  validate_response (mkResponse 500 ∅ None)
  = Raise (HttpCodeError (mkResponse 500 ∅ None)).
Proof. reflexivity. Qed.

Example validate_response_400_code_1 :
  let response :=
    mkResponse 400 ∅ (Some (JDict [("error", JDict [("code", JInt 1)])])) in
  validate_response response = Raise (HttpCodeError response).
Proof. reflexivity. Qed.

(** ** [request] *)

Lemma request_success_witness :
  let url := "https://api.venmo.com/v1/me" in
  let s := session (self sample_state) in
  request (answering ok_response) "GET" url s None None JNull sample_state
  = (Return ok_result,
     log_call (mkHttpCall s "GET" url None None JNull) sample_state).
Proof.
  apply (request_success (answering ok_response) "GET"
           "https://api.venmo.com/v1/me" (session (self sample_state))
           None None JNull sample_state ok_response (JDict [("id", JInt 7)])).
  - apply method_allowed_spec. reflexivity.
  - reflexivity.
  - simpl. lia.
  - reflexivity.
Defined.

Lemma request_invalid_method_witness :
  let url := "https://api.venmo.com/v1/me" in
  let s := session (self sample_state) in
  request (answering ok_response) "PATCH" url s None None JNull sample_state
  = (Raise InvalidHttpMethodError, sample_state).
Proof.
  apply request_invalid_method.
  apply method_allowed_false. reflexivity.
Defined.

(** The method is compared as written: lower case is not accepted. *)
Example request_lower_case_method :
  (request (answering ok_response) "get" "https://api.venmo.com/v1/me"
           (session (self sample_state)) None None JNull sample_state).1
  = Raise InvalidHttpMethodError.
Proof. reflexivity. Qed.

(** ** [call_api] *)

Lemma call_api_synchronous_witness :
  let hp := Some (CallerDict 7) in
  let out := call_api (answering ok_response) sample_session_headers
               "/payments" "POST" hp None sample_body None caller_state in
  ∃ (host : string) (response : Response) (v : value),
    let st0 := headers_updated hp sample_body caller_state in
    let c := mkHttpCall (session (self st0)) "POST" (host ++ "/payments")
               (Some (if truthy sample_body
                      then <["Content-Type" := "application/json"]>
                             (header_contents hp caller_state)
                      else header_contents hp caller_state))
               None sample_body in
    let r := mkResponseResult (status_code response)
                              (response_headers response) v in
    configuration (self caller_state) !! "host" = Some host ∧
    session_id (session (self st0)) = session_id (session (self caller_state)) ∧
    answering ok_response (http_log (world caller_state)) c = Return response ∧
    json response = Some v ∧
    http_log (world out.2) = (http_log (world caller_state) ++ [c])%list ∧
    started (world out.2) = started (world caller_state) ∧
    sessions_created (world out.2) = sessions_created (world caller_state) ∧
    ReturnedValue (Some ok_result) = ReturnedValue (Some r) ∧
    last_response (self out.2) = Some r.
Proof.
  apply (call_api_synchronous (answering ok_response) sample_session_headers
           "/payments" "POST" (Some (CallerDict 7)) None sample_body
           caller_state).
  vm_compute. reflexivity.
Defined.

(** A synchronous call without headers and without a body, computed. *)
Example call_api_get_me :
  let out := call_api (answering ok_response) sample_session_headers "/me"
               "GET" None None JNull None sample_state in
  out.1 = Return (ReturnedValue (Some ok_result)) ∧
  last_response (self out.2) = Some ok_result ∧
  http_log (world out.2)
  = [mkHttpCall (session (self sample_state)) "GET"
       "https://api.venmo.com/v1/me" (Some ∅) None JNull].
Proof. vm_compute. by repeat split. Qed.

(** A synchronous call with the caller's dictionary and a body, computed:
    the call carries the caller's entry and Content-Type, and the
    caller's dictionary has gained Content-Type. *)
Example call_api_post_caller_dict :
  let out := call_api (answering ok_response) sample_session_headers
               "/payments" "POST" (Some (CallerDict 7)) None sample_body None
               caller_state in
  call_headers <$> http_log (world out.2)
  = [Some {[ "Content-Type" := "application/json"; "X-Trace" := "1" ]}] ∧
  caller_dicts (world out.2) !! 7%positive
  = Some {[ "Content-Type" := "application/json"; "X-Trace" := "1" ]}.
Proof. vm_compute. by repeat split. Qed.

(** C8 as stated fails for [request]: called with a non-empty body and
    headers that name another Content-Type, [request] hands the headers
    over as they are, and the request sent keeps the caller's
    Content-Type: it does not carry application/json. *)
Lemma request_keeps_other_content_type :
  let url := "https://api.venmo.com/v1/payments" in
  let s := session (self sample_state) in
  let given : headers := {[ "Content-Type" := "text/plain" ]} in
  let c := mkHttpCall s "POST" url (Some given) None sample_body in
  truthy sample_body = true ∧
  http_log (world (request (answering ok_response) "POST" url s (Some given)
                     None sample_body sample_state).2)
  = [c] ∧
  call_headers c = Some given ∧
  effective_headers c !! "Content-Type" = Some "text/plain" ∧
  effective_headers c !! "Content-Type" ≠ Some "application/json".
Proof. vm_compute. by repeat split. Qed.

(** The same call through [__call_api], with the caller's dictionary
    holding that Content-Type, is sent as application/json. *)
Example call_api_overrides_content_type :
  let w := mkWorld 0 [] [] []
             {[ 7%positive := {[ "Content-Type" := "text/plain" ]} ]} in
  let st := __init__ sample_session_headers "abc123" w in
  effective_headers
    <$> http_log (world (__call_api (answering ok_response)
                           sample_session_headers "/payments" "POST"
                           (Some (CallerDict 7)) None sample_body None st).2)
  = [ {[ "Content-Type" := "application/json" ]}
      ∪ session_headers (session (self st)) ].
Proof. vm_compute. reflexivity. Qed.



(** Without a body the headers are the caller's, and the caller's
    dictionary is as it was. *)
Example call_api_no_body_headers :
  let out := __call_api (answering ok_response) sample_session_headers
               "/me" "GET" (Some (CallerDict 7)) None JNull None
               caller_state in
  http_log (world out.2)
  = [mkHttpCall (session (self caller_state)) "GET"
       "https://api.venmo.com/v1/me" (Some {[ "X-Trace" := "1" ]}) None JNull] ∧
  caller_dicts (world out.2) = caller_dicts (world caller_state).
Proof. vm_compute. by repeat split. Qed.

Lemma call_api_asynchronous_witness :
  let hp := Some (CallerDict 7) in
  let t := mkThread 0 (mkCallArgs "/payments" "POST" hp None sample_body
                                  (Some sample_callback)) in
  let st1 := (call_api (answering ok_response) sample_session_headers
                "/payments" "POST" hp None sample_body (Some sample_callback)
                caller_state).2 in
  let st2 := (Thread_run (answering ok_response) sample_session_headers t
                st1).2 in
  ∃ (host : string) (response : Response) (v : value),
    let st0 := headers_updated hp sample_body st1 in
    let fresh := mkSession (sessions_created (world st1))
                   (default_headers (self st0) ∪ sample_session_headers) in
    let c := mkHttpCall fresh "POST" (host ++ "/payments")
               (Some (if truthy sample_body
                      then <["Content-Type" := "application/json"]>
                             (header_contents hp st1)
                      else header_contents hp st1))
               None sample_body in
    let r := mkResponseResult (status_code response)
                              (response_headers response) v in
    configuration (self st1) !! "host" = Some host ∧
    session_id fresh ≠ session_id (session (self st1)) ∧
    fresh ≠ session (self st0) ∧
    answering ok_response (http_log (world st1)) c = Return response ∧
    json response = Some v ∧
    callback_raises sample_callback r = None ∧
    http_log (world st2) = (http_log (world st1) ++ [c])%list ∧
    sessions_created (world st2) = S (sessions_created (world st1)) ∧
    callback_log (world st2)
    = (callback_log (world st1) ++ [(sample_callback, r)])%list.
Proof.
  apply (proj2 (call_api_asynchronous (answering ok_response)
                  sample_session_headers "/payments" "POST"
                  (Some (CallerDict 7)) None sample_body sample_callback
                  caller_state)).
  - unfold session_registered. simpl. lia.
  - vm_compute. reflexivity.
Defined.

(** The asynchronous call of the example, computed: [call_api] returns the
    thread, which is now the one started thread, and makes no call; the
    thread's body then calls the service on session 1 (the client's own is
    session 0) and invokes the callback. *)
Example call_api_post_async :
  let t := mkThread 0 (mkCallArgs "/payments" "POST" None None sample_body
                                  (Some sample_callback)) in
  let out := call_api (answering ok_response) sample_session_headers
               "/payments" "POST" None None sample_body (Some sample_callback)
               sample_state in
  let ran := Thread_run (answering ok_response) sample_session_headers t
               out.2 in
  out.1 = Return (ReturnedThread t) ∧
  started (world out.2) = [t] ∧
  http_log (world out.2) = [] ∧
  session_id (session (self sample_state)) = 0%nat ∧
  ran.1 = Return tt ∧
  call_session <$> http_log (world ran.2)
  = [mkSession 1 (default_headers (self sample_state) ∪ sample_session_headers)] ∧
  callback_log (world ran.2) = [(sample_callback, ok_result)].
Proof. vm_compute. by repeat split. Qed.

(** When the client's own [default_headers] are passed as [header_params]
    with a body, they gain Content-Type before the worker's session is
    loaded with them, so that session sends it by default too. *)
Example call_api_async_default_headers :
  let t := mkThread 0 (mkCallArgs "/payments" "POST" (Some DefaultHeaders)
                                  None sample_body (Some sample_callback)) in
  let ran := Thread_run (answering ok_response) sample_session_headers t
               sample_state in
  default_headers (self ran.2) !! "Content-Type" = Some "application/json" ∧
  (session_headers ∘ call_session) <$> http_log (world ran.2)
  = [ {[ "Content-Type" := "application/json" ]}
      ∪ default_headers (self sample_state) ∪ sample_session_headers ].
Proof. vm_compute. by repeat split. Qed.

(** ** [clean_kwargs] *)

(** The two examples of the specification. *)
Example clean_kwargs_a :
  clean_kwargs ["a"; "b"] 1%positive store_a
  = (Return 1%positive, <[1%positive := [("a", VInt 1)]]> store_a).
Proof. vm_compute. reflexivity. Qed.

Example clean_kwargs_a_c :
  (clean_kwargs ["a"; "b"] 1%positive store_a_c).1
  = Raise (TypeError
             "Got an unexpected keyword argument 'c' to method bla bla").
Proof. vm_compute. reflexivity. Qed.

(** C6 as stated fails when the bucket has an entry under ["kwargs"] and
    the allow-list admits it: the entry is assigned and then deleted with
    the bucket, so the returned mapping is empty and does not hold it. *)
Lemma clean_kwargs_drops_kwargs_entry :
  store_kwargs !! 1%positive = Some [("kwargs", VRef 2)] ∧
  store_kwargs !! 2%positive = Some [("kwargs", VInt 1)] ∧
  allowed ["kwargs"] "kwargs" = true ∧
  clean_kwargs ["kwargs"] 1%positive store_kwargs
  = (Return 1%positive, <[1%positive := []]> store_kwargs) ∧
  dict_lookup "kwargs" ([] : dict) ≠ Some (VInt 1).
Proof. vm_compute. by repeat split. Qed.

Lemma clean_kwargs_filters_witness :
  (∃ d',
     clean_kwargs ["a"; "b"] 1%positive store_a
     = (Return 1%positive, <[1%positive := d']> store_a) ∧
     dict_lookup "kwargs" d' = None ∧
     (∀ key val, (key, val) ∈ [("a", VInt 1)] → key ≠ "kwargs" →
                 dict_lookup key d' = Some val) ∧
     (∀ key, key ∉ keys [("a", VInt 1)] → key ≠ "kwargs" →
             dict_lookup key d' = dict_lookup key [("kwargs", VRef 2)]))
  ∧
  (∃ (pre : dict) (key : string) (val : pyval) (post : dict) (h' : store),
     [("a", VInt 1); ("c", VInt 2)] = (pre ++ (key, val) :: post)%list ∧
     (∀ k, k ∈ keys pre → k ∈ ["a"; "b"]) ∧
     key ∈ keys [("a", VInt 1); ("c", VInt 2)] ∧ (key ∉ ["a"; "b"]) ∧
     clean_kwargs ["a"; "b"] 1%positive store_a_c
     = (Raise (TypeError (unexpected_keyword key)), h')).
Proof.
  split.
  - apply (proj2 (clean_kwargs_filters ["a"; "b"] 1%positive 2%positive
                    store_a [("kwargs", VRef 2)] [("a", VInt 1)]
                    eq_refl eq_refl eq_refl
                    ltac:(by apply (bool_decide_unpack _)))).
    intros key Hk. apply allowed_spec.
    apply list_elem_of_singleton in Hk as ->. reflexivity.
  - apply (proj1 (clean_kwargs_filters ["a"; "b"] 1%positive 2%positive
                    store_a_c [("kwargs", VRef 2)]
                    [("a", VInt 1); ("c", VInt 2)]
                    eq_refl eq_refl eq_refl
                    ltac:(by apply (bool_decide_unpack _)))).
    exists "c". split.
    + by apply (bool_decide_unpack _).
    + apply allowed_false. reflexivity.
Defined.

Lemma clean_kwargs_in_place_witness :
  let h' : store := <[1%positive := [("a", VInt 1)]]> store_a in
  1%positive = 1%positive ∧
  (∃ d d', store_a !! 1%positive = Some d ∧ h' !! 1%positive = Some d' ∧
           is_Some (dict_lookup "kwargs" d) ∧
           dict_lookup "kwargs" d' = None) ∧
  ∀ l : loc, l ≠ 1%positive → h' !! l = store_a !! l.
Proof.
  apply (proj1 clean_kwargs_in_place ["a"; "b"] 1%positive 1%positive store_a).
  vm_compute. reflexivity.
Defined.


(** * Further properties of the client *)

(** ** Access token *)

Lemma slice_to_length (n : nat) (s : string) :
  (String.length (slice_to n s) ≤ String.length s)%nat.
Proof.
  unfold slice_to. revert s. induction n as [|n IH]; intros [|c s]; simpl;
    try lia.
  specialize (IH s). lia.
Qed.

(** X1. Normalising twice is not normalising once: the marker that is
    prepended is not the marker that is tested for, so a token without
    ["Bearer"] in front, normalised and handed to the constructor again,
    gets the prefix a second time. *)
Theorem validate_access_token_twice (token : string) :
  slice_to 6 token ≠ "Bearer" →
  __validate_access_token (__validate_access_token token)
  = "Barear Barear " ++ token.
Proof.
  intros H. rewrite (validate_access_token_prepends token H).
  by rewrite validate_access_token_prepends.
Qed.

Lemma validate_access_token_twice_witness :
  __validate_access_token (__validate_access_token "abc123")
  = "Barear Barear abc123".
Proof. apply (validate_access_token_twice "abc123"). discriminate. Defined.

(** X2. A token shorter than six characters, the empty token included,
    cannot carry the marker and is always prefixed. *)
Theorem validate_access_token_short (token : string) :
  (String.length token < 6)%nat →
  __validate_access_token token = "Barear " ++ token.
Proof.
  intros Hlen. apply validate_access_token_prepends. intros H.
  pose proof (slice_to_length 6 token) as Hle. rewrite H in Hle.
  simpl in Hle. lia.
Qed.

Lemma validate_access_token_short_witness :
  __validate_access_token "" = "Barear ".
Proof. apply (validate_access_token_short ""). simpl. lia. Defined.

(** ** Response validation *)

Lemma validate_response_Return_status (response response' : Response) :
  validate_response response = Return response' →
  200 ≤ status_code response ≤ 204.
Proof.
  unfold validate_response.
  destruct (in_range (status_code response) 200 205) eqn:Hr.
  - apply in_range_spec in Hr. lia.
  - simpl. destruct (_ =? 400); [|done].
    destruct (response_json response) as [body|]; simpl; [|done].
    destruct (py_get body "error") as [error|]; simpl; [|done].
    destruct (py_get error "code") as [code|]; simpl; [|done].
    by destruct (py_eq_int code 283).
Qed.

(** X3. Validation succeeds exactly on the statuses 200 to 204, and then
    hands back the response it was given; the body plays no part. *)
Theorem validate_response_Return_iff (response response' : Response) :
  validate_response response = Return response'
  ↔ response' = response ∧ 200 ≤ status_code response ≤ 204.
Proof.
  split.
  - intros H. split; [by apply validate_response_Return in H|].
    by apply validate_response_Return_status in H.
  - intros [-> H]. by apply validate_response_2xx.
Qed.

(** X4. [ResourceNotFoundError] is raised only for a 400 whose body is a
    dictionary holding, under ["error"], a dictionary whose ["code"] equals
    283, and for every such response. *)
Theorem validate_response_not_found_iff (response : Response) :
  validate_response response = Raise ResourceNotFoundError
  ↔ status_code response = 400 ∧
    ∃ (entries error : list (string * value)) (code : value),
      json response = Some (JDict entries) ∧
      dict_lookup "error" entries = Some (JDict error) ∧
      dict_lookup "code" error = Some code ∧
      py_eq_int code 283 = true.
Proof.
  split.
  - unfold validate_response, response_json.
    destruct (in_range _ _ _ && bound_method_truth); [done|].
    destruct (status_code response =? 400) eqn:Hs; [|done].
    apply Z.eqb_eq in Hs. intros H. split; [done|].
    destruct (json response) as [[| | | | | |entries]|] eqn:Hj; try done.
    simpl in H.
    destruct (dict_lookup "error" entries) as [[| | | | | |error]|] eqn:Herr;
      try done.
    simpl in H.
    destruct (dict_lookup "code" error) as [code|] eqn:Hc; simpl in H;
      [|done].
    destruct (py_eq_int code 283) eqn:He; [|done].
    by exists entries, error, code.
  - intros (Hs & entries & error & code & Hj & He & Hc & Heq).
    unfold validate_response, response_json.
    rewrite Hs, Hj. simpl. rewrite He. simpl. rewrite Hc. simpl.
    by rewrite Heq.
Qed.

(** X5. [HttpCodeError] always carries the response that was validated,
    and it is raised exactly when the status is outside 200..204 and
    either is not 400, or is 400 with a dictionary body whose ["error"] is
    a dictionary with a code (or none) other than 283. *)
Theorem validate_response_http_code_error_iff (response response' : Response) :
  validate_response response = Raise (HttpCodeError response')
  ↔ response' = response ∧
    ¬ 200 ≤ status_code response ≤ 204 ∧
    (status_code response ≠ 400 ∨
     ∃ entries error : list (string * value),
       json response = Some (JDict entries) ∧
       dict_lookup "error" entries = Some (JDict error) ∧
       py_eq_int (default JNull (dict_lookup "code" error)) 283 = false).
Proof.
  split.
  - unfold validate_response, response_json.
    destruct (in_range (status_code response) 200 205) eqn:Hr; [done|].
    apply in_range_false in Hr. simpl.
    destruct (status_code response =? 400) eqn:Hs.
    + intros H.
      destruct (json response) as [[| | | | | |entries]|] eqn:Hj; try done.
      simpl in H.
      destruct (dict_lookup "error" entries) as [[| | | | | |error]|]
        eqn:Herr; try done.
      simpl in H.
      destruct (py_eq_int (default JNull (dict_lookup "code" error)) 283)
        eqn:He; [done|].
      injection H as <-. split; [done|]. split; [lia|]. right.
      by exists entries, error.
    + apply Z.eqb_neq in Hs. intros [= <-].
      split; [done|]. split; [lia|]. by left.
  - intros (-> & Hr & [Hs|(entries & error & Hj & He & Hc)]).
    + by apply validate_response_other_status.
    + destruct (decide (status_code response = 400)) as [Hs|Hs].
      * by apply (validate_response_400_other_code _ entries error).
      * by apply validate_response_other_status.
Qed.

Section MoreTransportProperties.

Variable network : list HttpCall → HttpCall → result Response.
Variable requests_default_headers : headers.

(** ** [request] *)

(** The only effect of [request]: one logged call when the method is
    allowed, nothing otherwise. *)
Lemma request_final_state (method url : string) (s : Session)
    (header_params : option headers) (params : option query) (body : value)
    (st : State) :
  (request network method url s header_params params body st).2
  = if method_allowed method
    then log_call (mkHttpCall s method url header_params params body) st
    else st.
Proof.
  destruct (method_allowed method) eqn:Hm.
  - apply request_logs. by apply method_allowed_spec.
  - by rewrite request_not_allowed.
Qed.

(** X6. Whatever [request] returns carries a status between 200 and 204:
    no other status ever reaches the caller as a result. *)
Theorem request_Return_status (method url : string) (s : Session)
    (header_params : option headers) (params : option query) (body : value)
    (st st' : State) (r : ResponseResult) :
  request network method url s header_params params body st = (Return r, st') →
  200 ≤ result_status_code r ≤ 204.
Proof.
  intros (response & v & _ & _ & Hv & _ & -> & _)%request_Return.
  simpl. by apply validate_response_Return_status in Hv.
Qed.

(** X7. An exception of the transport is not caught: [request] raises it
    as it is, after the one call that was made. *)
Theorem request_transport_error (method url : string) (s : Session)
    (header_params : option headers) (params : option query) (body : value)
    (st : State) (e : exn) :
  method ∈ http_methods →
  network (http_log (world st))
          (mkHttpCall s method url header_params params body) = Raise e →
  request network method url s header_params params body st
  = (Raise e, log_call (mkHttpCall s method url header_params params body) st).
Proof.
  intros Hm Hn. apply method_allowed_spec in Hm.
  unfold request. rewrite Hm. simpl.
  unfold mbind, ST_bind, session_request. by rewrite Hn.
Qed.

(** X8. An error of validation is raised by [request] unchanged, after the
    one call that was made: in particular the 400/283 answer surfaces as
    [ResourceNotFoundError] and other failures as [HttpCodeError] with the
    response. *)
Theorem request_validation_error (method url : string) (s : Session)
    (header_params : option headers) (params : option query) (body : value)
    (st : State) (response : Response) (e : exn) :
  method ∈ http_methods →
  network (http_log (world st))
          (mkHttpCall s method url header_params params body)
    = Return response →
  validate_response response = Raise e →
  request network method url s header_params params body st
  = (Raise e, log_call (mkHttpCall s method url header_params params body) st).
Proof.
  intros Hm Hn Hv. apply method_allowed_spec in Hm.
  unfold request. rewrite Hm. simpl.
  unfold mbind, ST_bind, session_request, lift. by rewrite Hn, Hv.
Qed.

(** ** [call_api] and the worker *)

(** Dictionaries other than the one written keep their contents. *)
Lemma read_write_dict_ne (r r' : dict_ref) (h : headers) (st : State) :
  r ≠ r' → read_dict r' (write_dict r h st) = read_dict r' st.
Proof.
  intros Hne. destruct r, r'; simpl; try done.
  rewrite lookup_insert_ne; [done | congruence].
Qed.

(** The contents of every dictionary after the header statements. *)
Lemma read_dict_headers_updated (header_params : option dict_ref)
    (body : value) (r : dict_ref) (st : State) :
  read_dict r (headers_updated header_params body st)
  = if bool_decide (header_params = Some r) && truthy body
       && negb (bool_decide (read_dict r st = ∅))
    then <["Content-Type" := "application/json"]> (read_dict r st)
    else read_dict r st.
Proof.
  unfold headers_updated. destruct header_params as [r0|];
    [|by rewrite bool_decide_eq_false_2].
  destruct (decide (r0 = r)) as [->|Hne].
  - rewrite (bool_decide_eq_true_2 (Some r = Some r)) by done. simpl.
    destruct (truthy body && _); [by rewrite read_write_dict | done].
  - rewrite (bool_decide_eq_false_2 (Some r0 = Some r)) by congruence. simpl.
    destruct (truthy body && _); [by rewrite read_write_dict_ne | done].
Qed.

(** After the header statements, [__call_api] changes no dictionary and
    not the access token. *)
Lemma call_api_body_dicts (resource_path method : string)
    (header_params : option dict_ref) (params : option query) (body : value)
    (callback : option Callback) (st : State) :
  let st' := (__call_api network requests_default_headers resource_path
                method header_params params body callback st).2 in
  access_token (self st') = access_token (self st) ∧
  ∀ r : dict_ref,
    read_dict r st' = read_dict r (headers_updated header_params body st).
Proof.
  pose proof (headers_updated_client header_params body st) as (Hat & _ & _).
  destruct (configuration (self st) !! "host") as [host|] eqn:Hh;
    [|by rewrite call_api_body_no_host].
  destruct callback as [cb|].
  - rewrite (call_api_body_async _ _ _ _ _ _ _ _ _ host Hh).
    match goal with |- context [request network ?m ?u ?s ?h ?p ?b ?x] =>
      pose proof (request_final_state m u s h p b x) as Hst;
      destruct (request network m u s h p b x) as [[r|e] st1] end;
      simpl in *; subst st1; destruct (method_allowed method);
      (split; [done | by intros []]).
  - rewrite (call_api_body_sync _ _ _ _ _ _ _ _ host Hh).
    match goal with |- context [request network ?m ?u ?s ?h ?p ?b ?x] =>
      pose proof (request_final_state m u s h p b x) as Hst;
      destruct (request network m u s h p b x) as [[r|e] st1] end;
      simpl in *; subst st1; destruct (method_allowed method);
      (split; [done | by intros []]).
Qed.


(** X10. A synchronous [call_api] that raises leaves [last_response] as
    it was, holding the result of the last call that succeeded; no thread
    is started, no session created and no callback invoked. *)
Theorem call_api_failure_keeps_last_response (resource_path method : string)
    (header_params : option dict_ref) (params : option query) (body : value)
    (st st' : State) (e : exn) :
  call_api network requests_default_headers resource_path method
           header_params params body None st = (Raise e, st') →
  last_response (self st') = last_response (self st) ∧
  started (world st') = started (world st) ∧
  sessions_created (world st') = sessions_created (world st) ∧
  callback_log (world st') = callback_log (world st).
Proof.
  pose proof (headers_updated_world header_params body st)
    as (Hsc & _ & Hth & Hcl).
  pose proof (headers_updated_client header_params body st) as (_ & Hlr & _).
  unfold call_api, mbind, ST_bind.
  destruct (configuration (self st) !! "host") as [host|] eqn:Hh.
  - rewrite (call_api_body_sync _ _ _ _ _ _ _ _ host Hh).
    match goal with |- context [request network ?m ?u ?s ?h ?p ?b ?x] =>
      pose proof (request_final_state m u s h p b x) as Hst;
      destruct (request network m u s h p b x) as [[r|e'] st1] end;
      [done|].
    intros [= <- <-]. simpl in Hst. subst st1.
    by destruct (method_allowed method).
  - rewrite call_api_body_no_host by done. by intros [= <- <-].
Qed.

(** X11. What [call_api] and a worker do to dictionaries, whatever the
    outcome: the dictionary passed as [header_params] has gained
    Content-Type: application/json, in place, when it was not empty and
    the body is true in a condition; an empty dictionary, or any
    dictionary when the body is not true, is left as it was, and so is
    every dictionary that was not passed, the client's own included. The
    access token never changes. *)
Theorem call_api_updates_header_params (resource_path method : string)
    (header_params : option dict_ref) (params : option query) (body : value)
    (t : Thread) (st : State) :
  let st1 := (call_api network requests_default_headers resource_path method
                header_params params body None st).2 in
  let st2 := (Thread_run network requests_default_headers t st).2 in
  (access_token (self st1) = access_token (self st) ∧
   ∀ r : dict_ref,
     read_dict r st1
     = if bool_decide (header_params = Some r) && truthy body
          && negb (bool_decide (read_dict r st = ∅))
       then <["Content-Type" := "application/json"]> (read_dict r st)
       else read_dict r st)
  ∧
  (access_token (self st2) = access_token (self st) ∧
   ∀ r : dict_ref,
     read_dict r st2
     = if bool_decide (arg_header_params (thread_args t) = Some r)
          && truthy (arg_body (thread_args t))
          && negb (bool_decide (read_dict r st = ∅))
       then <["Content-Type" := "application/json"]> (read_dict r st)
       else read_dict r st).
Proof.
  split.
  - unfold call_api, mbind, ST_bind.
    pose proof (call_api_body_dicts resource_path method header_params
                  params body None st) as [Hat Hd].
    destruct (__call_api _ _ _ _ _ _ _ _ _) as [[o|e] st'];
      (split; [done|]); intros r; simpl in *;
      by rewrite Hd, read_dict_headers_updated.
  - unfold Thread_run, mbind, ST_bind.
    pose proof (call_api_body_dicts (arg_resource_path (thread_args t))
                  (arg_method (thread_args t))
                  (arg_header_params (thread_args t))
                  (arg_params (thread_args t)) (arg_body (thread_args t))
                  (arg_callback (thread_args t)) st) as [Hat Hd].
    destruct (__call_api _ _ _ _ _ _ _ _ _) as [[o|e] st'];
      (split; [done|]); intros r; simpl in *;
      by rewrite Hd, read_dict_headers_updated.
Qed.

(** A worker that completes: the state it leaves. *)
Lemma Thread_run_Return (t : Thread) (cb : Callback) (st st' : State) :
  arg_callback (thread_args t) = Some cb →
  Thread_run network requests_default_headers t st = (Return tt, st') →
  ∃ (host : string) (r : ResponseResult) (c : HttpCall),
    session_id (call_session c) = sessions_created (world st) ∧
    callback_raises cb r = None ∧
    st' = record_callback cb r
            (store_last_response r
               (log_call c
                  (count_session
                     (headers_updated (arg_header_params (thread_args t))
                        (arg_body (thread_args t)) st)))).
Proof.
  intros Hcb H. unfold Thread_run in H.
  apply bind_Return in H as (o & st1 & H & Hret).
  injection Hret as <-. rewrite Hcb in H.
  destruct (configuration (self st) !! "host") as [host|] eqn:Hh;
    [|by rewrite call_api_body_no_host in H].
  rewrite (call_api_body_async _ _ _ _ _ _ _ _ _ host Hh) in H.
  destruct (request _ _ _ _ _ _ _ _) as [[r|e] st2] eqn:Hr; [|done].
  destruct (callback_raises cb r) eqn:Hraises; [done|].
  injection H as <- <-.
  apply request_Return in Hr as (response & v & _ & _ & _ & _ & _ & ->).
  eexists host, r, _. split; [|split; [exact Hraises | reflexivity] ].
  done.
Qed.

(** X12. When the body of a thread raises, one of two things happened.
    Either the failure came before the callback: then the callback has
    not been invoked and [last_response] is what it was. Or the callback
    itself raised: then it has been invoked once, with a result that is
    already stored in [last_response], and the exception is the
    callback's. *)
Theorem Thread_run_failure_cases (t : Thread) (st st' : State) (e : exn) :
  Thread_run network requests_default_headers t st = (Raise e, st') →
  (callback_log (world st') = callback_log (world st) ∧
   last_response (self st') = last_response (self st))
  ∨
  (∃ (cb : Callback) (r : ResponseResult),
     arg_callback (thread_args t) = Some cb ∧
     callback_raises cb r = Some e ∧
     callback_log (world st') = (callback_log (world st) ++ [(cb, r)])%list ∧
     last_response (self st') = Some r).
Proof.
  pose proof (headers_updated_world (arg_header_params (thread_args t))
                (arg_body (thread_args t)) st) as (_ & _ & _ & Hcl).
  pose proof (headers_updated_client (arg_header_params (thread_args t))
                (arg_body (thread_args t)) st) as (_ & Hlr & _).
  unfold Thread_run, mbind, ST_bind.
  destruct (configuration (self st) !! "host") as [host|] eqn:Hh.
  - destruct (arg_callback (thread_args t)) as [cb|] eqn:Hcb.
    + rewrite (call_api_body_async _ _ _ _ _ _ _ _ _ host Hh).
      match goal with |- context [request network ?m ?u ?s ?h ?p ?b ?x] =>
        pose proof (request_final_state m u s h p b x) as Hst;
        destruct (request network m u s h p b x) as [[r|e'] st1] end.
      * destruct (callback_raises cb r) as [e'|] eqn:Hraises; [|done].
        intros [= <- <-]. right. exists cb, r. simpl in Hst. subst st1.
        split; [done|]. split; [done|].
        destruct (method_allowed _); simpl; by rewrite Hcl.
      * intros [= <- <-]. left. simpl in Hst. subst st1.
        by destruct (method_allowed _).
    + rewrite (call_api_body_sync _ _ _ _ _ _ _ _ host Hh).
      match goal with |- context [request network ?m ?u ?s ?h ?p ?b ?x] =>
        pose proof (request_final_state m u s h p b x) as Hst;
        destruct (request network m u s h p b x) as [[r|e'] st1] end;
        [done|].
      intros [= <- <-]. left. simpl in Hst. subst st1.
      by destruct (method_allowed _).
  - rewrite call_api_body_no_host by done. intros [= <- <-]. by left.
Qed.

(** X13. A worker that completes has stored in [last_response] the very
    result it passed to the callback: the field is written on the
    asynchronous path as well. *)
Theorem Thread_run_sets_last_response (t : Thread) (cb : Callback)
    (st st' : State) :
  arg_callback (thread_args t) = Some cb →
  Thread_run network requests_default_headers t st = (Return tt, st') →
  ∃ r : ResponseResult,
    last_response (self st') = Some r ∧
    callback_log (world st') = (callback_log (world st) ++ [(cb, r)])%list.
Proof.
  intros Hcb H.
  destruct (Thread_run_Return t cb st st' Hcb H) as (host & r & c & _ & _ & ->).
  pose proof (headers_updated_world (arg_header_params (thread_args t))
                (arg_body (thread_args t)) st) as (_ & _ & _ & Hcl).
  exists r. simpl. by rewrite Hcl.
Qed.

(** X14. A worker given a method the client does not accept has already
    run the header statements and created its session when [request]
    rejects the method: it raises [InvalidHttpMethodError] having counted
    one more session, made no call and invoked no callback. *)
Theorem Thread_run_invalid_method (t : Thread) (cb : Callback) (host : string)
    (st : State) :
  arg_callback (thread_args t) = Some cb →
  configuration (self st) !! "host" = Some host →
  arg_method (thread_args t) ∉ http_methods →
  Thread_run network requests_default_headers t st
  = (Raise InvalidHttpMethodError,
     count_session (headers_updated (arg_header_params (thread_args t))
                      (arg_body (thread_args t)) st)).
Proof.
  intros Hcb Hh Hm. apply method_allowed_false in Hm.
  unfold Thread_run. apply bind_raise. rewrite Hcb.
  rewrite (call_api_body_async _ _ _ _ _ _ _ _ _ host Hh).
  by rewrite request_not_allowed.
Qed.

(** X15. Two workers that run one after the other make their calls on two
    different sessions, both different from the primary one. *)
Theorem workers_use_distinct_sessions (t1 t2 : Thread) (cb1 cb2 : Callback)
    (st st1 st2 : State) :
  session_registered st →
  arg_callback (thread_args t1) = Some cb1 →
  arg_callback (thread_args t2) = Some cb2 →
  Thread_run network requests_default_headers t1 st = (Return tt, st1) →
  Thread_run network requests_default_headers t2 st1 = (Return tt, st2) →
  ∃ c1 c2 : HttpCall,
    http_log (world st2) = (http_log (world st) ++ [c1; c2])%list ∧
    session_id (call_session c1) ≠ session_id (call_session c2) ∧
    session_id (call_session c1) ≠ session_id (session (self st)) ∧
    session_id (call_session c2) ≠ session_id (session (self st)).
Proof.
  unfold session_registered. intros Hreg Hcb1 Hcb2 H1 H2.
  destruct (Thread_run_Return t1 cb1 st st1 Hcb1 H1)
    as (h1 & r1 & c1 & Hid1 & _ & ->).
  destruct (Thread_run_Return t2 cb2 _ st2 Hcb2 H2)
    as (h2 & r2 & c2 & Hid2 & _ & ->).
  clear H1 H2.
  pose proof (headers_updated_world (arg_header_params (thread_args t1))
                (arg_body (thread_args t1)) st) as (Hsc1 & Hlog1 & _ & _).
  match type of Hid2 with _ = sessions_created (world ?s) =>
    pose proof (headers_updated_world (arg_header_params (thread_args t2))
                  (arg_body (thread_args t2)) s) as (_ & Hlog2 & _ & _)
  end.
  exists c1, c2. cbn in Hid2. rewrite Hsc1 in Hid2.
  split.
  - cbn. rewrite Hlog2. cbn. rewrite Hlog1, <- app_assoc. done.
  - rewrite Hid1, Hid2. lia.
Qed.

(** ** The constructor *)

(** X16. After construction the primary session sends the normalised
    token as Authorization and the client's own User-Agent, whatever
    [requests] had put there, and keeps every other default header of
    [requests]. *)
Theorem init_session_headers (token : string) (w : World) :
  let s := session (self (__init__ requests_default_headers token w)) in
  session_headers s !! "Authorization" = Some (__validate_access_token token) ∧
  session_headers s !! "User-Agent"
  = Some "Venmo/7.44.0 (iPhone; iOS 13.0; Scale/2.0)" ∧
  ∀ key : string,
    key ≠ "Authorization" → key ≠ "User-Agent" →
    session_headers s !! key = requests_default_headers !! key.
Proof.
  simpl. split; [|split].
  - apply lookup_union_Some_l. apply lookup_insert_eq.
  - apply lookup_union_Some_l.
    rewrite lookup_insert_ne by done. apply lookup_singleton_eq.
  - intros key H1 H2. apply lookup_union_r.
    rewrite lookup_insert_ne by done. by apply lookup_singleton_ne.
Qed.

(** X17. On a client fresh from the constructor, a synchronous [call_api]
    with an allowed method always reaches the transport, exactly once, at
    the fixed host followed by the resource path as given, on the primary
    session, with the contents of the caller's headers and Content-Type
    when the body is true in a condition. *)
Theorem init_then_call_api (token resource_path method : string)
    (header_params : option dict_ref) (params : option query) (body : value)
    (w : World) :
  method ∈ http_methods →
  let st := __init__ requests_default_headers token w in
  let st0 := headers_updated header_params body st in
  session_id (session (self st0)) = session_id (session (self st)) ∧
  http_log (world (call_api network requests_default_headers resource_path
                     method header_params params body None st).2)
  = (http_log w
     ++ [mkHttpCall (session (self st0)) method
           ("https://api.venmo.com/v1" ++ resource_path)
           (Some (if truthy body
                  then <["Content-Type" := "application/json"]>
                         (header_contents header_params st)
                  else header_contents header_params st))
           params body])%list.
Proof.
  intros Hm st st0.
  pose proof (headers_updated_world header_params body st)
    as (_ & Hlog & _ & _).
  pose proof (headers_updated_client header_params body st) as (_ & _ & Hid).
  split; [done|].
  unfold call_api, mbind, ST_bind.
  rewrite (call_api_body_sync _ _ _ _ _ _ _ _ "https://api.venmo.com/v1")
    by done.
  match goal with |- context [request network ?m ?u ?s ?h ?p ?b ?x] =>
    pose proof (request_logs network m u s h p b x Hm) as Hst;
    destruct (request network m u s h p b x) as [[r|e] st1] end;
    simpl in Hst; subst st1; simpl; by rewrite Hlog.
Qed.

End MoreTransportProperties.

(** ** [clean_kwargs]: missing pieces and what is left untouched *)

Lemma setitem_frame_any (params l : loc) (key : string) (val : pyval)
    (h : store) :
  l ≠ params → (setitem params key val h).2 !! l = h !! l.
Proof.
  intros Hl. unfold setitem, mbind, ST_bind, deref, assign.
  destruct (h !! params); simpl; [by rewrite lookup_insert_ne | done].
Qed.

Lemma merge_items_frame_any (all_params : list string) (params l : loc)
    (items : dict) (h : store) :
  l ≠ params → (merge_items all_params params items h).2 !! l = h !! l.
Proof.
  intros Hl. revert h. induction items as [|[k v] rest IH]; intros h; [done|].
  simpl. destruct (allowed all_params k); simpl; [|done].
  unfold mbind, ST_bind.
  pose proof (setitem_frame_any params l k v h Hl) as Hset.
  destruct (setitem params k v h) as [[u|e] h1]; simpl in *; [|done].
  by rewrite IH.
Qed.

(** X18. On a mapping without a ["kwargs"] entry [clean_kwargs] raises
    [KeyError] for that key and changes nothing. *)
Theorem clean_kwargs_missing_bucket (all_params : list string) (params : loc)
    (h : store) (d : dict) :
  h !! params = Some d →
  dict_lookup "kwargs" d = None →
  clean_kwargs all_params params h = (Raise (KeyError "kwargs"), h).
Proof.
  intros Hd Hk. unfold clean_kwargs. apply bind_raise.
  unfold subscript, mbind, ST_bind, deref. by rewrite Hd, Hk.
Qed.

Lemma clean_kwargs_missing_bucket_witness :
  clean_kwargs ["limit"] 1%positive store_no_bucket
  = (Raise (KeyError "kwargs"), store_no_bucket).
Proof.
  apply (clean_kwargs_missing_bucket _ _ _ [("limit", VInt 10)]);
    reflexivity.
Defined.

(** X19. When the ["kwargs"] entry is not a dictionary, [clean_kwargs]
    raises [AttributeError] and changes nothing. *)
Theorem clean_kwargs_bucket_not_dict (all_params : list string) (params : loc)
    (h : store) (d : dict) (x : pyval) :
  h !! params = Some d →
  dict_lookup "kwargs" d = Some x →
  (∀ l : loc, x ≠ VRef l) →
  clean_kwargs all_params params h
  = (Raise (AttributeError "object has no attribute 'items'"), h).
Proof.
  intros Hd Hk Hx. unfold clean_kwargs.
  unfold mbind at 1. unfold ST_bind at 1.
  unfold subscript, mbind at 1. unfold ST_bind at 1. unfold deref.
  rewrite Hd, Hk. unfold mret at 1. unfold ST_ret at 1.
  apply bind_raise. destruct x; try done. by destruct (Hx l).
Qed.

Lemma clean_kwargs_bucket_not_dict_witness :
  clean_kwargs ["limit"] 1%positive store_bucket_none
  = (Raise (AttributeError "object has no attribute 'items'"),
     store_bucket_none).
Proof.
  apply (clean_kwargs_bucket_not_dict _ _ _
           [("limit", VInt 10); ("kwargs", VNone)] VNone);
    [reflexivity | reflexivity | discriminate].
Defined.

(** X20. Whatever the outcome, [clean_kwargs] changes no object other
    than the mapping it was given: the bucket, when it is another object,
    is as the caller passed it. *)
Theorem clean_kwargs_frame (all_params : list string) (params l : loc)
    (h : store) :
  l ≠ params →
  (clean_kwargs all_params params h).2 !! l = h !! l.
Proof.
  intros Hl. unfold clean_kwargs.
  unfold mbind at 1. unfold ST_bind at 1.
  destruct (subscript params "kwargs" h) as [[x|e] h1] eqn:Hsub.
  2:{ unfold subscript, mbind, ST_bind, deref in Hsub.
      destruct (h !! params) as [d|]; [|by injection Hsub as _ <-].
      destruct (dict_lookup "kwargs" d); [done | by injection Hsub as _ <-]. }
  apply subscript_Return in Hsub as [-> _].
  unfold mbind at 1. unfold ST_bind at 1.
  destruct (iteritems x h) as [[items|e] h2] eqn:Hit.
  2:{ destruct x; try by injection Hit as _ <-.
      simpl in Hit. unfold deref in Hit.
      destruct (h !! l0); [done | by injection Hit as _ <-]. }
  apply iteritems_Return in Hit as ->.
  unfold mbind at 1. unfold ST_bind at 1.
  pose proof (merge_items_frame_any all_params params l items h Hl) as Hm.
  destruct (merge_items all_params params items h) as [[u|e] h3];
    simpl in Hm; [|done].
  unfold mbind at 1. unfold ST_bind at 1.
  destruct (delitem params "kwargs" h3) as [[u'|e] h4] eqn:Hdel.
  - apply delitem_Return in Hdel as (d & _ & ->). simpl.
    by rewrite lookup_insert_ne.
  - unfold delitem, mbind, ST_bind, deref in Hdel.
    destruct (h3 !! params) as [d|]; [|by injection Hdel as _ <-].
    destruct (dict_lookup "kwargs" d); [done | by injection Hdel as _ <-].
Qed.

Lemma clean_kwargs_frame_witness :
  (clean_kwargs ["a"; "b"] 1%positive store_a_c).2 !! 2%positive
  = store_a_c !! 2%positive.
Proof. apply (clean_kwargs_frame ["a"; "b"] 1%positive 2%positive). lia. Defined.

(** X21. [clean_kwargs] cannot be applied twice: once it has returned,
    the bucket is gone from the mapping, and a second call on the same
    mapping raises [KeyError] whatever the allow-list. *)
Theorem clean_kwargs_twice (all_params all_params' : list string)
    (params r : loc) (h h' : store) :
  clean_kwargs all_params params h = (Return r, h') →
  clean_kwargs all_params' params h' = (Raise (KeyError "kwargs"), h').
Proof.
  intros H. unfold clean_kwargs in H.
  apply bind_Return in H as (x & h1 & _ & H).
  apply bind_Return in H as (items & h2 & _ & H).
  apply bind_Return in H as (u & h3 & _ & H).
  apply bind_Return in H as (u' & h4 & Hdel & H).
  injection H as _ <-.
  apply delitem_Return in Hdel as (d & _ & ->).
  unfold clean_kwargs. apply bind_raise.
  unfold subscript, mbind, ST_bind, deref.
  by rewrite lookup_insert_eq, dict_lookup_remove_eq.
Qed.

Lemma clean_kwargs_twice_witness :
  clean_kwargs ["a"; "b"] 1%positive
               (<[1%positive := [("a", VInt 1)]]> store_a)
  = (Raise (KeyError "kwargs"), <[1%positive := [("a", VInt 1)]]> store_a).
Proof.
  apply (clean_kwargs_twice ["a"; "b"] ["a"; "b"] 1%positive 1%positive
           store_a).
  vm_compute. reflexivity.
Defined.

(** X22. A failure is partial in a precise way: when the first key that
    is not allowed comes after the entries [pre], the mapping afterwards
    holds every entry of [pre], is unchanged under every key outside
    [pre] (so no later entry of the bucket has been merged), and still has
    its bucket unless [pre] itself assigned to ["kwargs"]. *)
Theorem clean_kwargs_partial (all_params : list string) (params bucket : loc)
    (h : store) (d pre post : dict) (key : string) (val : pyval) :
  h !! params = Some d →
  dict_lookup "kwargs" d = Some (VRef bucket) →
  h !! bucket = Some (pre ++ (key, val) :: post)%list →
  NoDup (keys pre) →
  (∀ k, k ∈ keys pre → k ∈ all_params) →
  key ∉ all_params →
  ∃ d' : dict,
    clean_kwargs all_params params h
    = (Raise (TypeError (unexpected_keyword key)), <[params := d']> h) ∧
    (∀ k v, (k, v) ∈ pre → dict_lookup k d' = Some v) ∧
    (∀ k, k ∉ keys pre → dict_lookup k d' = dict_lookup k d) ∧
    ("kwargs" ∉ keys pre → dict_lookup "kwargs" d' = Some (VRef bucket)).
Proof.
  intros Hd Hk Hb Hnd Hall Hkey. exists (assign_all pre d).
  split; [by apply (clean_kwargs_rejected _ _ bucket _ _ pre post key val)|].
  split; [intros k v Hin; by apply dict_lookup_assign_all_entry|].
  split; [intros k Hin; by apply dict_lookup_assign_all_other|].
  intros Hin. by rewrite dict_lookup_assign_all_other.
Qed.

Lemma clean_kwargs_partial_witness :
  ∃ d' : dict,
    clean_kwargs ["a"; "b"] 1%positive store_a_c
    = (Raise (TypeError (unexpected_keyword "c")), <[1%positive := d']> store_a_c) ∧
    (∀ k v, (k, v) ∈ [("a", VInt 1)] → dict_lookup k d' = Some v) ∧
    (∀ k, k ∉ keys [("a", VInt 1)] →
          dict_lookup k d' = dict_lookup k [("kwargs", VRef 2)]) ∧
    ("kwargs" ∉ keys [("a", VInt 1)] →
     dict_lookup "kwargs" d' = Some (VRef 2)).
Proof.
  apply (clean_kwargs_partial ["a"; "b"] 1%positive 2%positive store_a_c
           [("kwargs", VRef 2)] [("a", VInt 1)] [] "c" (VInt 2)).
  - reflexivity.
  - reflexivity.
  - reflexivity.
  - by apply (bool_decide_unpack _).
  - intros k Hk. apply list_elem_of_singleton in Hk as ->.
    apply allowed_spec. reflexivity.
  - apply allowed_false. reflexivity.
Defined.

(** X23. When the first key of the bucket is not allowed, and so for any
    non-empty bucket under an empty allow-list, the [TypeError] names that
    key and the store is exactly as before. *)
Theorem clean_kwargs_first_key_rejected (all_params : list string)
    (params bucket : loc) (h : store) (d rest : dict) (key : string)
    (val : pyval) :
  h !! params = Some d →
  dict_lookup "kwargs" d = Some (VRef bucket) →
  h !! bucket = Some ((key, val) :: rest) →
  key ∉ all_params →
  clean_kwargs all_params params h
  = (Raise (TypeError (unexpected_keyword key)), h).
Proof.
  intros Hd Hk Hb Hkey.
  rewrite (clean_kwargs_rejected all_params params bucket h d [] rest key val);
    try done.
  - simpl. by rewrite insert_id.
  - by intros k ?%elem_of_nil.
Qed.

Lemma clean_kwargs_first_key_rejected_witness :
  clean_kwargs [] 1%positive store_a
  = (Raise (TypeError (unexpected_keyword "a")), store_a).
Proof.
  apply (clean_kwargs_first_key_rejected [] 1%positive 2%positive store_a
           [("kwargs", VRef 2)] [] "a" (VInt 1)).
  - reflexivity.
  - reflexivity.
  - reflexivity.
  - apply not_elem_of_nil.
Defined.

(** X24. With an empty bucket every allow-list is satisfied, the empty one
    included: the mapping only loses its ["kwargs"] entry, the other
    entries keeping their values and their order. *)
Theorem clean_kwargs_empty_bucket (all_params : list string)
    (params bucket : loc) (h : store) (d : dict) :
  h !! params = Some d →
  dict_lookup "kwargs" d = Some (VRef bucket) →
  h !! bucket = Some [] →
  clean_kwargs all_params params h
  = (Return params, <[params := dict_remove "kwargs" d]> h).
Proof.
  intros Hd Hk Hb.
  rewrite (clean_kwargs_allowed all_params params bucket h d []); try done.
  by intros key ?%elem_of_nil.
Qed.

Lemma clean_kwargs_empty_bucket_witness :
  clean_kwargs [] 1%positive store_empty_bucket
  = (Return 1%positive,
     <[1%positive := dict_remove "kwargs"
                       [("limit", VInt 10); ("kwargs", VRef 2)]]>
       store_empty_bucket).
Proof.
  apply (clean_kwargs_empty_bucket [] 1%positive 2%positive
           store_empty_bucket); reflexivity.
Defined.

(** ** The further properties at concrete inputs *)

Lemma request_Return_status_witness :
  200 ≤ result_status_code ok_result ≤ 204.
Proof.
  apply (request_Return_status (answering ok_response) "GET"
           "https://api.venmo.com/v1/me" (session (self sample_state))
           None None JNull sample_state
           (log_call (mkHttpCall (session (self sample_state)) "GET"
                        "https://api.venmo.com/v1/me" None None JNull)
                     sample_state)).
  reflexivity.
Defined.

Lemma request_transport_error_witness :
  let url := "https://api.venmo.com/v1/me" in
  let s := session (self sample_state) in
  request unreachable "GET" url s None None JNull sample_state
  = (Raise (RequestException "connection refused"),
     log_call (mkHttpCall s "GET" url None None JNull) sample_state).
Proof.
  apply request_transport_error.
  - apply method_allowed_spec. reflexivity.
  - reflexivity.
Defined.

Lemma request_validation_error_witness :
  let url := "https://api.venmo.com/v1/users/0" in
  let s := session (self sample_state) in
  request (answering not_found_response) "GET" url s None None JNull
          sample_state
  = (Raise ResourceNotFoundError,
     log_call (mkHttpCall s "GET" url None None JNull) sample_state).
Proof.
  apply (request_validation_error (answering not_found_response) "GET" _ _
           None None JNull sample_state not_found_response).
  - apply method_allowed_spec. reflexivity.
  - reflexivity.
  - reflexivity.
Defined.


(** The rejected call above has changed the caller's dictionary. *)
Example call_api_invalid_method_updates_caller_dict :
  let out := call_api (answering ok_response) sample_session_headers
               "/payments" "PATCH" (Some (CallerDict 7)) None sample_body None
               caller_state in
  out.1 = Raise InvalidHttpMethodError ∧
  http_log (world out.2) = [] ∧
  read_dict (CallerDict 7) caller_state = {[ "X-Trace" := "1" ]} ∧
  read_dict (CallerDict 7) out.2
  = <["Content-Type" := "application/json"]> {[ "X-Trace" := "1" ]}.
Proof. vm_compute. done. Qed.

(** Passing the client's own default headers has the same effect on the
    client. *)
Example call_api_invalid_method_updates_default_headers :
  let out := call_api (answering ok_response) sample_session_headers
               "/payments" "PATCH" (Some DefaultHeaders) None sample_body None
               sample_state in
  out.1 = Raise InvalidHttpMethodError ∧
  default_headers (self sample_state) !! "Content-Type" = None ∧
  default_headers (self out.2) !! "Content-Type" = Some "application/json".
Proof. vm_compute. done. Qed.

Lemma call_api_failure_keeps_last_response_witness :
  let out := call_api (answering server_error_response) sample_session_headers
               "/payments" "POST" (Some (CallerDict 7)) None sample_body None
               caller_state in
  last_response (self out.2) = last_response (self caller_state) ∧
  started (world out.2) = started (world caller_state) ∧
  sessions_created (world out.2) = sessions_created (world caller_state) ∧
  callback_log (world out.2) = callback_log (world caller_state).
Proof.
  apply (call_api_failure_keeps_last_response
           (answering server_error_response) sample_session_headers
           "/payments" "POST" (Some (CallerDict 7)) None sample_body
           caller_state _ (HttpCodeError server_error_response)).
  vm_compute. reflexivity.
Defined.

Lemma Thread_run_failure_cases_witness :
  let out := Thread_run (answering ok_response) sample_session_headers
               failing_thread caller_state in
  (callback_log (world out.2) = callback_log (world caller_state) ∧
   last_response (self out.2) = last_response (self caller_state))
  ∨
  (∃ (cb : Callback) (r : ResponseResult),
     arg_callback (thread_args failing_thread) = Some cb ∧
     callback_raises cb r = Some (TypeError "bad callback") ∧
     callback_log (world out.2)
     = (callback_log (world caller_state) ++ [(cb, r)])%list ∧
     last_response (self out.2) = Some r).
Proof.
  apply (Thread_run_failure_cases (answering ok_response)
           sample_session_headers failing_thread caller_state _
           (TypeError "bad callback")).
  vm_compute. reflexivity.
Defined.

(** A callback that raises: the body of the thread raises the callback's
    exception, after the call was made, the result stored and the callback
    invoked. *)
Example Thread_run_callback_raises :
  let out := Thread_run (answering ok_response) sample_session_headers
               failing_thread caller_state in
  out.1 = Raise (TypeError "bad callback") ∧
  length (http_log (world out.2)) = 1%nat ∧
  last_response (self out.2) = Some ok_result ∧
  callback_log (world out.2) = [(failing_callback, ok_result)].
Proof. vm_compute. done. Qed.

(** A failure before the callback: nothing is stored and the callback is
    not invoked. *)
Example Thread_run_server_error :
  let out := Thread_run (answering server_error_response)
               sample_session_headers failing_thread caller_state in
  out.1 = Raise (HttpCodeError server_error_response) ∧
  last_response (self out.2) = None ∧
  callback_log (world out.2) = [].
Proof. vm_compute. done. Qed.

Lemma Thread_run_sets_last_response_witness :
  let out := Thread_run (answering ok_response) sample_session_headers
               sample_thread sample_state in
  ∃ r : ResponseResult,
    last_response (self out.2) = Some r ∧
    callback_log (world out.2)
    = (callback_log (world sample_state) ++ [(sample_callback, r)])%list.
Proof.
  apply (Thread_run_sets_last_response (answering ok_response)
           sample_session_headers sample_thread sample_callback sample_state).
  - reflexivity.
  - vm_compute. reflexivity.
Defined.

Lemma Thread_run_invalid_method_witness :
  Thread_run (answering ok_response) sample_session_headers
             caller_patch_thread caller_state
  = (Raise InvalidHttpMethodError,
     count_session
       (headers_updated (Some (CallerDict 7)) sample_body caller_state)).
Proof.
  apply (Thread_run_invalid_method _ _ caller_patch_thread sample_callback
           "https://api.venmo.com/v1").
  - reflexivity.
  - reflexivity.
  - apply method_allowed_false. reflexivity.
Defined.

Lemma workers_use_distinct_sessions_witness :
  let st1 := (Thread_run (answering ok_response) sample_session_headers
                sample_thread sample_state).2 in
  let st2 := (Thread_run (answering ok_response) sample_session_headers
                sample_thread st1).2 in
  ∃ c1 c2 : HttpCall,
    http_log (world st2) = (http_log (world sample_state) ++ [c1; c2])%list ∧
    session_id (call_session c1) ≠ session_id (call_session c2) ∧
    session_id (call_session c1) ≠ session_id (session (self sample_state)) ∧
    session_id (call_session c2) ≠ session_id (session (self sample_state)).
Proof.
  apply (workers_use_distinct_sessions (answering ok_response)
           sample_session_headers sample_thread sample_thread sample_callback
           sample_callback sample_state
           (Thread_run (answering ok_response) sample_session_headers
              sample_thread sample_state).2).
  - unfold session_registered. simpl. lia.
  - reflexivity.
  - reflexivity.
  - vm_compute. reflexivity.
  - vm_compute. reflexivity.
Defined.

Lemma init_then_call_api_witness :
  let st := __init__ sample_session_headers "abc123" caller_world in
  let st0 := headers_updated (Some (CallerDict 7)) sample_body st in
  session_id (session (self st0)) = session_id (session (self st)) ∧
  http_log (world (call_api (answering ok_response) sample_session_headers
                     "/payments" "POST" (Some (CallerDict 7)) None
                     sample_body None st).2)
  = (http_log caller_world
     ++ [mkHttpCall (session (self st0)) "POST"
           ("https://api.venmo.com/v1" ++ "/payments")
           (Some (if truthy sample_body
                  then <["Content-Type" := "application/json"]>
                         (header_contents (Some (CallerDict 7)) st)
                  else header_contents (Some (CallerDict 7)) st))
           None sample_body])%list.
Proof.
  apply (init_then_call_api (answering ok_response) sample_session_headers
           "abc123" "/payments" "POST" (Some (CallerDict 7)) None sample_body
           caller_world).
  apply method_allowed_spec. reflexivity.
Defined.
